(** * GIC-quAI-QRC: the classical models and the pipeline driver

    A shallow embedding of [src/models.py] ([NeuralNetwork], [QRCModel]) and
    of [src/main.py] ([main]), together with the quantum layer
    ([qrc_layer.DetuningLayer]) that both files drive.

    Conventions.
    - Python floats are rationals ([Q]); the code embedded here only
      compares them or passes them on. Tensor arithmetic (the float32
      kernels behind [nn.Linear] and [nn.Softmax]) is not embedded.
    - Python [str] is [string]; case mapping is the ASCII one.
    - A Python exception is a value of [Exn]; code that can raise returns
      [Exn + A], with [inl] the raised exception. *)

From Stdlib Require Import List String Ascii Bool Arith ZArith QArith Lia.
Import ListNotations.

Open Scope string_scope.
Open Scope list_scope.
Open Scope Z_scope.

(** ** Python basics *)

Inductive Exn : Type :=
| ValueError (msg : string)
| TypeError (msg : string)
| RuntimeError (msg : string)
| OtherError (kind msg : string).

Definition is_ValueError {A : Type} (r : Exn + A) : Prop :=
  match r with
  | inl (ValueError _) => True
  | _ => False
  end.

(** The error monad of plain (state-free) Python code. *)
Definition bindE {A B : Type} (m : Exn + A) (k : A -> Exn + B) : Exn + B :=
  match m with
  | inl e => inl e
  | inr a => k a
  end.

Declare Scope exn_scope.
Delimit Scope exn_scope with exn.
Notation "x <- m ;; k" := (bindE m (fun x => k))
  (at level 61, m at next level, right associativity) : exn_scope.

(** [str.lower()] on ASCII text. *)
Definition ascii_lower (c : ascii) : ascii :=
  let n := nat_of_ascii c in
  if (65 <=? n)%nat && (n <=? 90)%nat then ascii_of_nat (n + 32) else c.

Fixpoint lower (s : string) : string :=
  match s with
  | EmptyString => EmptyString
  | String c s' => String (ascii_lower c) (lower s')
  end.

(** [str.upper()] on ASCII text. *)
Definition ascii_upper (c : ascii) : ascii :=
  let n := nat_of_ascii c in
  if (97 <=? n)%nat && (n <=? 122)%nat then ascii_of_nat (n - 32) else c.

Fixpoint upper (s : string) : string :=
  match s with
  | EmptyString => EmptyString
  | String c s' => String (ascii_upper c) (upper s')
  end.

(** Case-insensitive equality, letter by letter: two characters match when
    they are equal or when one is an upper-case letter [A..Z] and the other
    its lower-case form. This is the reading of "case-insensitively equal"
    that the constructor's [activation.lower() == name] test is compared
    with. *)
Definition same_letter (a b : ascii) : Prop :=
  let x := nat_of_ascii a in
  let y := nat_of_ascii b in
  x = y \/ ((65 <= x <= 90)%nat /\ y = (x + 32)%nat)
        \/ ((65 <= y <= 90)%nat /\ x = (y + 32)%nat).

Fixpoint eq_nocase (s t : string) : Prop :=
  match s, t with
  | EmptyString, EmptyString => True
  | String a s', String b t' => same_letter a b /\ eq_nocase s' t'
  | _, _ => False
  end.

(** [seq[:n]]: a negative bound counts from the end. *)
Definition py_slice_to {A : Type} (l : list A) (n : Z) : list A :=
  if n <? 0 then firstn (Z.to_nat (Z.of_nat (List.length l) + n)) l
  else firstn (Z.to_nat n) l.

(** [results[key] = value] on an insertion-ordered [dict]. *)
Fixpoint dict_set {A : Type} (d : list (string * A)) (key : string) (v : A)
    : list (string * A) :=
  match d with
  | [] => [(key, v)]
  | (k, v') :: d' =>
      if (k =? key)%string then (k, v) :: d' else (k, v') :: dict_set d' key v
  end.

(** ** The collaborators of main.py and models.py

    [data_processing], [feature_reduction], [qrc_layer], [training],
    [visualization] and [cli_utils] are imported by the two files and are not
    part of them. They appear here as an interface, [Env]: each call may read
    and change the world ([W]: files, the global random generators, the
    console, the objects it holds) and may raise. *)

Module Collab.

(** A 2-D [numpy.ndarray] of floats, as a list of rows. *)
Definition ndarray := list (list Q).

(** Opaque Python objects are known by their identity. *)
Definition LayerRef := nat.
Definition ModelRef := nat.

(** A fitted reduction model (PCA or an autoencoder): its identity and the
    width of the codes it produces. *)
Record ReductionModel : Type := {
  rm_id : nat;
  rm_width : Z
}.



Record Metadata : Type := {
  n_samples : Z;
  n_classes : Z
}.

(** The dictionaries [load_dataset] returns, with the keys [main] reads. *)
Record Dataset : Type := {
  data : ndarray;
  targets : list Z;
  metadata : Metadata
}.

(** The [argparse.Namespace] of [cli_utils.get_args], with the attributes
    [main] reads. *)
Record Args : Type := {
  seed : Z;
  data_dir : option string;
  dataset_type : string;
  target_size : list Z;
  split_ratio : Q;
  dim_reduction : Z;
  reduction_method : string;
  num_examples : Z;
  num_test_examples : Z;
  gpu : bool;
  autoencoder_hidden_dims : list Z;
  autoencoder_batch_size : Z;
  autoencoder_epochs : Z;
  autoencoder_learning_rate : Q;
  no_progress : bool;
  geometry : string;
  lattice_spacing : Q;
  rabi_freq : Q;
  evolution_time : Q;
  time_steps : Z;
  readout_type : string;
  encoding_scale : Q;
  guided_alpha : Q;
  guided_beta : Q;
  guided_batch_size : Z;
  quantum_update_frequency : Z;
  n_shots : Z;
  detuning_max : Q;
  regularization : Q;
  nepochs : Z;
  batchsize : Z;
  learning_rate : Q;
  no_plot : bool
}.

(** The arguments of one [DetuningLayer(...)] call. [la_print_params] is
    [None] where the call leaves the keyword out. *)
Record LayerArgs : Type := {
  la_geometry : string;
  la_n_atoms : Z;
  la_lattice_spacing : Q;
  la_rabi_freq : Q;
  la_t_end : Q;
  la_n_steps : Z;
  la_readout_type : string;
  la_encoding_scale : Q;
  la_print_params : option bool
}.

(** The arguments of one [apply_layer(...)] call; an argument the call leaves
    out is [None]. *)
Record ApplyArgs : Type := {
  a_x : ndarray;
  a_n_shots : option Z;
  a_show_progress : option bool
}.

Record LoadArgs : Type := {
  ld_kind : string;
  ld_data_dir : string;
  ld_target_size : list Z;
  ld_split_ratio : option Q
}.

Record AutoencoderArgs : Type := {
  ae_data : Dataset;
  ae_quantum_layer : option LayerRef;
  ae_encoding_dim : Z;
  ae_num_examples : Z;
  ae_hidden_dims : list Z;
  ae_alpha : option Q;
  ae_beta : option Q;
  ae_batch_size : Z;
  ae_epochs : Z;
  ae_learning_rate : Q;
  ae_quantum_update_frequency : option Z;
  ae_n_shots : option Z;
  ae_device : string;
  ae_verbose : bool;
  ae_use_batch_norm : bool;
  ae_dropout : Q;
  ae_weight_decay : Q
}.

Record EncodeArgs : Type := {
  en_data : Dataset;
  en_model : ReductionModel;
  en_num_examples : Z;
  en_device : string;
  en_verbose : bool
}.

Inductive Labels : Type :=
| Classes (l : list Z)
| Encoded (m : ndarray).

Inductive KwVal : Type :=
| KInt (n : Z)
| KFloat (q : Q)
| KBool (b : bool).

Record TrainArgs : Type := {
  x_train : ndarray;
  y_train : Labels;
  x_test : ndarray;
  y_test : Labels;
  kwargs : list (string * KwVal)
}.

Record TrainResult : Type := {
  loss : list Q;
  accs_train : list Q;
  accs_test : list Q;
  model : ModelRef
}.

Definition Results := list (string * TrainResult).

(** A collaborator call: it may raise, and it leaves a world behind either
    way. *)
Definition Ext (W A : Type) : Type := W -> (Exn + A) * W.

Record Env (W : Type) : Type := {
  get_args : Ext W Args;
  random_seed : Z -> Ext W unit;
  np_random_seed : Z -> Ext W unit;
  torch_manual_seed : Z -> Ext W unit;
  print : string -> W -> W;
  str_int : Z -> string;
  str_float : Q -> string;
  default_data_dir : string;
  path_join : string -> string -> string;
  path_exists : string -> W -> bool;
  cuda_is_available : W -> bool;
  load_dataset : LoadArgs -> Ext W (Dataset * Dataset);
  apply_pca : Dataset -> Z -> Z -> Ext W (ndarray * ReductionModel * Q);
  apply_pca_to_test_data : Dataset -> ReductionModel -> Z -> Z -> Ext W ndarray;
  apply_autoencoder : AutoencoderArgs -> Ext W (ndarray * ReductionModel * Q);
  apply_autoencoder_to_test_data : EncodeArgs -> Ext W ndarray;
  apply_guided_autoencoder : AutoencoderArgs -> Ext W (ndarray * ReductionModel * Q);
  apply_guided_autoencoder_to_test_data : EncodeArgs -> Ext W ndarray;
  one_hot_encode : list Z -> Z -> Ext W (ndarray * ModelRef);
  scale_to_detuning_range : ndarray -> Q -> Q -> Ext W ndarray;
  array_min : ndarray -> Exn + Q;
  array_max : ndarray -> Exn + Q;
  transpose : ndarray -> ndarray;
  DetuningLayer : LayerArgs -> Ext W LayerRef;
  apply_layer : LayerRef -> ApplyArgs -> Ext W ndarray;
  train : TrainArgs -> Ext W TrainResult;
  print_results : Results -> Ext W unit;
  plot_training_results : Results -> Ext W unit
}.

Arguments get_args {W}.
Arguments random_seed {W}.
Arguments np_random_seed {W}.
Arguments torch_manual_seed {W}.
Arguments print {W}.
Arguments str_int {W}.
Arguments str_float {W}.
Arguments default_data_dir {W}.
Arguments path_join {W}.
Arguments path_exists {W}.
Arguments cuda_is_available {W}.
Arguments load_dataset {W}.
Arguments apply_pca {W}.
Arguments apply_pca_to_test_data {W}.
Arguments apply_autoencoder {W}.
Arguments apply_autoencoder_to_test_data {W}.
Arguments apply_guided_autoencoder {W}.
Arguments apply_guided_autoencoder_to_test_data {W}.
Arguments one_hot_encode {W}.
Arguments scale_to_detuning_range {W}.
Arguments array_min {W}.
Arguments array_max {W}.
Arguments transpose {W}.
Arguments DetuningLayer {W}.
Arguments apply_layer {W}.
Arguments train {W}.
Arguments print_results {W}.
Arguments plot_training_results {W}.

(** The calls a run makes on the quantum layer, in order, each with the
    arguments it passed and what came back. *)
Inductive Event : Type :=
| EConstruct (a : LayerArgs) (r : Exn + LayerRef)
| EApplyLayer (layer : LayerRef) (a : ApplyArgs) (r : Exn + ndarray).

(** An [apply_layer] call that passes all of [x], [n_shots] and
    [show_progress]. *)
Definition supplies_all (e : Event) : Prop :=
  match e with
  | EApplyLayer _ a _ => a_n_shots a <> None /\ a_show_progress a <> None
  | EConstruct _ _ => True
  end.

(** What running a piece of the program gives: its result, the world it
    leaves and the calls it made. *)
Record Run (W A : Type) : Type := {
  result : Exn + A;
  final : W;
  calls : list Event
}.

Arguments result {W A}.
Arguments final {W A}.
Arguments calls {W A}.

(** Whether a run returned rather than raised. *)
Definition returned {W A : Type} (r : Run W A) : bool :=
  match result r with
  | inr _ => true
  | inl _ => false
  end.

Definition M (W A : Type) : Type := W -> Run W A.

Definition ret {W A : Type} (a : A) : M W A :=
  fun w => {| result := inr a; final := w; calls := [] |}.

Definition raise {W A : Type} (e : Exn) : M W A :=
  fun w => {| result := inl e; final := w; calls := [] |}.

Definition bind {W A B : Type} (m : M W A) (k : A -> M W B) : M W B :=
  fun w =>
    let r := m w in
    match result r with
    | inl e => {| result := inl e; final := final r; calls := calls r |}
    | inr a =>
        let r' := k a (final r) in
        {| result := result r'; final := final r'; calls := calls r ++ calls r' |}
    end.

(** A collaborator call that main does not record. *)
Definition ext {W A : Type} (f : Ext W A) : M W A :=
  fun w => {| result := fst (f w); final := snd (f w); calls := [] |}.

(** A call that cannot change the world but may raise. *)
Definition pure {W A : Type} (r : Exn + A) : M W A :=
  fun w => {| result := r; final := w; calls := [] |}.

(** Reading the world. *)
Definition peek {W A : Type} (f : W -> A) : M W A :=
  fun w => {| result := inr (f w); final := w; calls := [] |}.

(** Writing to the world. *)
Definition poke {W : Type} (f : W -> W) : M W unit :=
  fun w => {| result := inr tt; final := f w; calls := [] |}.

(** A recorded collaborator call. *)
Definition recorded {W A : Type} (f : Ext W A) (ev : Exn + A -> Event) : M W A :=
  fun w => {| result := fst (f w); final := snd (f w); calls := [ev (fst (f w))] |}.

(** A collaborator call that never raises. *)
Definition succeeds {W A : Type} (f : Ext W A) : Prop :=
  forall w e, fst (f w) <> inl e.

(** [args] with another [reduction_method]. *)
Definition with_reduction_method (a : Args) (method : string) : Args :=
  {| seed := seed a;
     data_dir := data_dir a;
     dataset_type := dataset_type a;
     target_size := target_size a;
     split_ratio := split_ratio a;
     dim_reduction := dim_reduction a;
     reduction_method := method;
     num_examples := num_examples a;
     num_test_examples := num_test_examples a;
     gpu := gpu a;
     autoencoder_hidden_dims := autoencoder_hidden_dims a;
     autoencoder_batch_size := autoencoder_batch_size a;
     autoencoder_epochs := autoencoder_epochs a;
     autoencoder_learning_rate := autoencoder_learning_rate a;
     no_progress := no_progress a;
     geometry := geometry a;
     lattice_spacing := lattice_spacing a;
     rabi_freq := rabi_freq a;
     evolution_time := evolution_time a;
     time_steps := time_steps a;
     readout_type := readout_type a;
     encoding_scale := encoding_scale a;
     guided_alpha := guided_alpha a;
     guided_beta := guided_beta a;
     guided_batch_size := guided_batch_size a;
     quantum_update_frequency := quantum_update_frequency a;
     n_shots := n_shots a;
     detuning_max := detuning_max a;
     regularization := regularization a;
     nepochs := nepochs a;
     batchsize := batchsize a;
     learning_rate := learning_rate a;
     no_plot := no_plot a |}.

End Collab.

Declare Scope py_scope.
Delimit Scope py_scope with py.
Notation "x <- m ;; k" := (Collab.bind m (fun x => k))
  (at level 61, m at next level, right associativity) : py_scope.
Notation "m ;; k" := (Collab.bind m (fun _ => k))
  (at level 61, right associativity) : py_scope.

(** ** models.py *)

Module Models.

(** *** NeuralNetwork *)

(** The modules [NeuralNetwork.__init__] can put into its [nn.Sequential]. *)
Inductive Module : Type :=
| MLinear (fan_in fan_out : Z)
| MBatchNorm1d (num_features : Z)
| MReLU
| MLeakyReLU
| MTanh
| MSigmoid
| MDropout (p : Q)
| MSoftmax (dim : Z)
| MSequential (children : list PyVal)
(** A Python value that can sit in the [layers] list: a module, or whatever
    object the caller passed as [activation]. *)
with PyVal : Type :=
| VModule (m : Module)
| VObject (id : nat).

(** The [activation] argument: [Union[str, nn.Module]], not checked beyond
    [isinstance(activation, str)]. *)
Inductive ActivationArg : Type :=
| ActStr (s : string)
| ActVal (v : PyVal).

(** The torch constructors the class calls. They are library code, so the
    constructor is stated over any behaviour of theirs. *)
Record TorchNN : Type := {
  torch_Linear : Z -> Z -> Exn + Module;
  torch_BatchNorm1d : Z -> Exn + Module;
  torch_Dropout : Q -> Exn + Module;
  torch_Softmax : Z -> Exn + Module;
  torch_Sequential : list PyVal -> Exn + Module
}.

Definition unknown_activation (activation : string) : Exn :=
  ValueError ("Unknown activation function: " ++ activation)%string.

(** Lines 67-79: the choice of [act_fn]. *)
Definition select_activation (activation : ActivationArg) : Exn + PyVal :=
  match activation with
  | ActStr s =>
      if (lower s =? "relu")%string then inr (VModule MReLU)
      else if (lower s =? "leaky_relu")%string then inr (VModule MLeakyReLU)
      else if (lower s =? "tanh")%string then inr (VModule MTanh)
      else if (lower s =? "sigmoid")%string then inr (VModule MSigmoid)
      else inl (unknown_activation s)
  | ActVal v => inr v
  end.

(** [dropout > 0] on floats. *)
Definition Qpositive (q : Q) : bool := negb (Qle_bool q 0).

(** Lines 85-96: the loop over [hidden_dims], threading [layers] and
    [prev_dim]. *)
Fixpoint hidden_layers (T : TorchNN) (act_fn : PyVal) (dropout : Q)
    (batch_norm : bool) (hidden_dims : list Z) (layers : list PyVal)
    (prev_dim : Z) : Exn + (list PyVal * Z) :=
  match hidden_dims with
  | [] => inr (layers, prev_dim)
  | dim :: rest =>
      (lin <- torch_Linear T prev_dim dim ;;
       let layers := layers ++ [VModule lin] in
       layers <- (if batch_norm
                  then bn <- torch_BatchNorm1d T dim ;;
                       inr (layers ++ [VModule bn])
                  else inr layers) ;;
       let layers := layers ++ [act_fn] in
       layers <- (if Qpositive dropout
                  then d <- torch_Dropout T dropout ;;
                       inr (layers ++ [VModule d])
                  else inr layers) ;;
       hidden_layers T act_fn dropout batch_norm rest layers dim)%exn
  end.

(** Lines 81-102: everything after the choice of [act_fn]. *)
Definition build_network (T : TorchNN) (input_dim output_dim : Z)
    (hidden_dims : list Z) (act_fn : PyVal) (dropout : Q) (batch_norm : bool)
    : Exn + Module :=
  (st <- hidden_layers T act_fn dropout batch_norm hidden_dims [] input_dim ;;
   let layers := fst st in
   let prev_dim := snd st in
   out <- torch_Linear T prev_dim output_dim ;;
   let layers := layers ++ [VModule out] in
   sm <- torch_Softmax T 1 ;;
   let layers := layers ++ [VModule sm] in
   torch_Sequential T layers)%exn.

(** [NeuralNetwork.__init__]; the result is [self.layers]. *)
Definition NeuralNetwork_init (T : TorchNN) (input_dim output_dim : Z)
    (hidden_dims : list Z) (activation : ActivationArg) (dropout : Q)
    (batch_norm : bool) : Exn + Module :=
  (act_fn <- select_activation activation ;;
   build_network T input_dim output_dim hidden_dims act_fn dropout batch_norm)%exn.

(** The constructor checks PyTorch documents: [nn.Dropout(p)] raises
    [ValueError] unless [0 <= p <= 1], a tensor with a negative dimension is a
    [RuntimeError], and [nn.Sequential] accepts only modules. *)
Definition is_module (v : PyVal) : bool :=
  match v with
  | VModule _ => true
  | VObject _ => false
  end.

Definition pytorch : TorchNN :=
  {| torch_Linear := fun i o =>
       if (i <? 0) || (o <? 0)
       then inl (RuntimeError "Trying to create tensor with negative dimension")
       else inr (MLinear i o);
     torch_BatchNorm1d := fun d =>
       if d <? 0
       then inl (RuntimeError "Trying to create tensor with negative dimension")
       else inr (MBatchNorm1d d);
     torch_Dropout := fun p =>
       if Qle_bool 0 p && Qle_bool p 1 then inr (MDropout p)
       else inl (ValueError "dropout probability has to be between 0 and 1");
     torch_Softmax := fun d => inr (MSoftmax d);
     torch_Sequential := fun l =>
       if forallb is_module l then inr (MSequential l)
       else inl (TypeError "not a Module subclass") |}.

(** The names the constructor knows; [rejected] holds of an argument that is
    a string and none of them, case aside. *)
Definition known_activation (s : string) : Prop :=
  eq_nocase s "relu" \/ eq_nocase s "leaky_relu"
  \/ eq_nocase s "tanh" \/ eq_nocase s "sigmoid".

Definition rejected (activation : ActivationArg) : Prop :=
  exists s, activation = ActStr s /\ ~ known_activation s.

(** *** QRCModel *)

(** What [self.classifier] can hold: a class object, or an instance of some
    [nn.Module]. *)
Inductive ClassifierVal : Type :=
| ClassObject (name : string)
| Instance (m : Collab.ModelRef).

(** The class [LinearClassifier] itself, as a Python value. *)
Definition LinearClassifier_class : ClassifierVal := ClassObject "LinearClassifier".

Record QRCModel : Type := {
  quantum_layer : Collab.LayerRef;
  classifier : ClassifierVal
}.

(** [QRCModel.__init__(quantum_layer, classifier=None)]. *)
Definition QRCModel_init (quantum_layer : Collab.LayerRef)
    (classifier : option ClassifierVal) : QRCModel :=
  {| quantum_layer := quantum_layer;
     classifier := match classifier with
                   | Some c => c
                   | None => LinearClassifier_class
                   end |}.

Section Fit.
Import Collab.
Context {W : Type} (env : Env W).

(** [self.quantum_layer.apply_layer(x)]: one positional argument. *)
Definition apply_layer_x (layer : LayerRef) (x : ndarray) : M W ndarray :=
  let a := {| a_x := x; a_n_shots := None; a_show_progress := None |} in
  recorded (apply_layer env layer a) (EApplyLayer layer a).

(** [QRCModel.fit(x_train, y_train, x_test, y_test, **kwargs)]; the import
    of [train] at its first line is [train env]. *)
Definition QRCModel_fit (self : QRCModel) (x_train : ndarray) (y_train : Labels)
    (x_test : ndarray) (y_test : Labels) (kwargs : list (string * KwVal))
    : M W TrainResult :=
  (poke (print env "Computing quantum embeddings for training data...") ;;
   train_embeddings <- apply_layer_x (quantum_layer self) x_train ;;
   poke (print env "Computing quantum embeddings for test data...") ;;
   test_embeddings <- apply_layer_x (quantum_layer self) x_test ;;
   ext (train env {| Collab.x_train := train_embeddings;
                     Collab.y_train := y_train;
                     Collab.x_test := test_embeddings;
                     Collab.y_test := y_test;
                     Collab.kwargs := kwargs |}))%py.

End Fit.

(** *** The network the constructor assembles *)

(** A torch whose constructors, when they accept their arguments, return the
    module they were asked for. *)
Definition faithful (T : TorchNN) : Prop :=
  (forall i o m, torch_Linear T i o = inr m -> m = MLinear i o)
  /\ (forall d m, torch_BatchNorm1d T d = inr m -> m = MBatchNorm1d d)
  /\ (forall p m, torch_Dropout T p = inr m -> m = MDropout p)
  /\ (forall d m, torch_Softmax T d = inr m -> m = MSoftmax d)
  /\ (forall l m, torch_Sequential T l = inr m -> m = MSequential l).

(** One hidden layer of the docstring's "configurable architecture": a linear
    map, batch normalisation if asked for, the activation, dropout if its
    probability is positive. *)
Definition hidden_block (act_fn : PyVal) (dropout : Q) (batch_norm : bool)
    (fan_in fan_out : Z) : list PyVal :=
  [VModule (MLinear fan_in fan_out)]
  ++ (if batch_norm then [VModule (MBatchNorm1d fan_out)] else [])
  ++ [act_fn]
  ++ (if Qpositive dropout then [VModule (MDropout dropout)] else []).

(** The whole stack: one block per entry of [hidden_dims], each fed by the
    width before it, then the output layer and the softmax. *)
Fixpoint architecture (act_fn : PyVal) (dropout : Q) (batch_norm : bool)
    (fan_in : Z) (hidden_dims : list Z) (output_dim : Z) : list PyVal :=
  match hidden_dims with
  | [] => [VModule (MLinear fan_in output_dim); VModule (MSoftmax 1)]
  | dim :: rest =>
      hidden_block act_fn dropout batch_norm fan_in dim
      ++ architecture act_fn dropout batch_norm dim rest output_dim
  end.

(** The pairs [(fan_in, fan_out)] of the linear layers of a stack. *)
Definition linear_dims (children : list PyVal) : list (Z * Z) :=
  flat_map (fun c => match c with
                     | VModule (MLinear i o) => [(i, o)]
                     | _ => []
                     end) children.

Definition not_linear (v : PyVal) : Prop :=
  match v with
  | VModule (MLinear _ _) => False
  | _ => True
  end.

(** [T] with another [nn.Dropout]. *)
Definition with_Dropout (T : TorchNN) (d : Q -> Exn + Module) : TorchNN :=
  {| torch_Linear := torch_Linear T;
     torch_BatchNorm1d := torch_BatchNorm1d T;
     torch_Dropout := d;
     torch_Softmax := torch_Softmax T;
     torch_Sequential := torch_Sequential T |}.

(** [nn.Sequential.forward]: the children applied in order. [X] is the type
    of tensors and [call] is what calling one child on a tensor does; both
    belong to torch. *)
Fixpoint sequential_forward {X : Type} (call : PyVal -> X -> Exn + X)
    (children : list PyVal) (x : X) : Exn + X :=
  match children with
  | [] => inr x
  | c :: rest =>
      match call c x with
      | inl e => inl e
      | inr y => sequential_forward call rest y
      end
  end.

(** [NeuralNetwork.forward]: [self.layers(x)]. *)
Definition NeuralNetwork_forward {X : Type} (call : PyVal -> X -> Exn + X)
    (layers : Module) (x : X) : Exn + X :=
  match layers with
  | MSequential children => sequential_forward call children x
  | m => call (VModule m) x
  end.

End Models.

(** ** qrc_layer.py: the quantum layer

    [DetuningLayer] is imported by main.py and is not among the sources. The
    definitions below follow the specification of the layer (its sections 3,
    4, 6 and 7). *)

Module QrcLayer.
Import Collab.

(** Modelled from the spec: [LayerConfig] of qrc_layer, "immutable
    configuration set at construction (geometry type, atom count, lattice
    spacing, drive amplitude, evolution duration, step count, readout type,
    encoding scale)". *)
Record LayerConfig : Type := {
  geometry : string;
  n_atoms : Z;
  lattice_spacing : Q;
  rabi_freq : Q;
  t_end : Q;
  n_steps : Z;
  readout_type : string;
  encoding_scale : Q
}.

(** Modelled from the spec: the state of a [DetuningLayer] object of
    qrc_layer: its configuration, the AtomArray (one coordinate list per atom)
    and the InteractionMatrix, both "built once at Layer construction". *)
Record Layer : Type := {
  config : LayerConfig;
  atoms : list (list Q);
  interaction : list (list Q)
}.

(** The ambient random generators main.py seeds: [random], [numpy.random] and
    [torch], each in some generator state [G]. *)
Record Ambient (G : Type) : Type := {
  py_random : G;
  np_random : G;
  torch_random : G
}.

Arguments py_random {G}.
Arguments np_random {G}.
Arguments torch_random {G}.

(** The world the layer lives in: the ambient generators, what has been
    printed, and the layer objects created so far (a [LayerRef] is an index
    into [layers]). *)
Record World (G : Type) : Type := {
  ambient : Ambient G;
  console : list string;
  layers : list Layer
}.

Arguments ambient {G}.
Arguments console {G}.
Arguments layers {G}.

(** Modelled from the spec: the parts of qrc_layer the spec names and leaves
    to the implementation. [geometry_builder] is section 4.1 ([None] for an
    unrecognised name), [interaction_model] section 4.2,
    [final_probabilities] sections 4.3 and 4.4 (the outcome distribution
    [|amplitude|^2] of the evolved state for one input row), [draw] one shot
    of section 4.5 (an outcome of the distribution, using the ambient
    generators), [seeded] the state of a generator after seeding; the
    defaults are those of the arguments a call may leave out. *)
Record Numerics (G : Type) : Type := {
  geometry_builder : string -> Z -> Q -> option (list (list Q));
  interaction_model : list (list Q) -> LayerConfig -> list (list Q);
  final_probabilities : Layer -> list Q -> list Q;
  draw : Ambient G -> list Q -> nat * Ambient G;
  seeded : Z -> G;
  default_n_shots : Z;
  default_show_progress : bool
}.

Arguments geometry_builder {G}.
Arguments interaction_model {G}.
Arguments final_probabilities {G}.
Arguments draw {G}.
Arguments seeded {G}.
Arguments default_n_shots {G}.
Arguments default_show_progress {G}.

Section Layer.
Context {G : Type} (num : Numerics G).

Definition config_of (a : LayerArgs) : LayerConfig :=
  {| geometry := la_geometry a;
     n_atoms := la_n_atoms a;
     lattice_spacing := la_lattice_spacing a;
     rabi_freq := la_rabi_freq a;
     t_end := la_t_end a;
     n_steps := la_n_steps a;
     readout_type := la_readout_type a;
     encoding_scale := la_encoding_scale a |}.

(** Modelled from the spec: the constructor of [DetuningLayer] in qrc_layer,
    "pure configuration, no I/O". Sections 4.1 and 7: a non-positive atom
    count, a spacing [<= 0] or an unrecognised geometry name is a
    configuration error "at Layer construction"; otherwise the AtomArray and
    the InteractionMatrix are built and the new object is returned. The
    [print_params] keyword of main.py is not in the spec and has no part
    here. *)
Definition construct (a : LayerArgs) : Ext (World G) LayerRef :=
  fun w =>
    let cfg := config_of a in
    if n_atoms cfg <=? 0 then
      (inl (ValueError "n_atoms must be positive"), w)
    else if Qle_bool (lattice_spacing cfg) 0 then
      (inl (ValueError "lattice_spacing must be positive"), w)
    else
      match geometry_builder num (geometry cfg) (n_atoms cfg) (lattice_spacing cfg) with
      | None => (inl (ValueError "unknown geometry"), w)
      | Some positions =>
          let layer := {| config := cfg;
                          atoms := positions;
                          interaction := interaction_model num positions cfg |} in
          (inr (List.length (layers w)),
           {| ambient := ambient w;
              console := console w;
              layers := layers w ++ [layer] |})
      end.

(** Modelled from the spec: the shots of section 4.5 of qrc_layer, "draw
    [n_shots] independent samples from the categorical distribution over 2^N
    outcomes". *)
Fixpoint sample_shots (n_shots : nat) (probabilities : list Q) (rng : Ambient G)
    : list nat * Ambient G :=
  match n_shots with
  | O => ([], rng)
  | S n =>
      let (outcome, rng1) := draw num rng probabilities in
      let (rest, rng2) := sample_shots n probabilities rng1 in
      (outcome :: rest, rng2)
  end.

(** Atom [i] is excited in an outcome when bit [i] of the bitstring is set. *)
Definition excited (outcome i : nat) : bool := Nat.testbit outcome i.

Definition frequency (hits : list nat) (shots : list nat) : Q :=
  (inject_Z (Z.of_nat (List.length hits)) / inject_Z (Z.of_nat (List.length shots)))%Q.

(** Modelled from the spec: the probability readout of qrc_layer, "per atom,
    the empirical frequency of that atom being in the excited state across
    the [n_shots] draws". *)
Definition marginal (shots : list nat) (i : nat) : Q :=
  frequency (filter (fun o => excited o i) shots) shots.

(** Modelled from the spec: the pairwise correlator of qrc_layer,
    "excited-excited joint frequency minus product of marginals". *)
Definition correlator (shots : list nat) (ij : nat * nat) : Q :=
  (frequency (filter (fun o => excited o (fst ij) && excited o (snd ij)) shots) shots
   - marginal shots (fst ij) * marginal shots (snd ij))%Q.

Definition atom_pairs (n : nat) : list (nat * nat) :=
  flat_map (fun i => map (pair i) (seq (S i) (n - S i))) (seq 0 n).

(** Modelled from the spec: the readout of qrc_layer; the correlation readout
    is the marginals followed by the correlators of all atom pairs. *)
Definition readout (cfg : LayerConfig) (shots : list nat) : list Q :=
  let n := Z.to_nat (n_atoms cfg) in
  let marginals := map (marginal shots) (seq 0 n) in
  if (readout_type cfg =? "correlation")%string
  then marginals ++ map (correlator shots) (atom_pairs n)
  else marginals.

(** Modelled from the spec: section 4.6 of qrc_layer for one sample: evolve,
    measure, read out. *)
Definition embed_sample (layer : Layer) (n_shots : nat) (row : list Q)
    (rng : Ambient G) : list Q * Ambient G :=
  let (shots, rng') := sample_shots n_shots (final_probabilities num layer row) rng in
  (readout (config layer) shots, rng').

(** Modelled from the spec: the loop of [apply_layer] over the samples, with
    its "optional progress reporting (count of samples processed)". *)
Fixpoint embed_samples (layer : Layer) (n_shots : nat) (show_progress : bool)
    (rows : ndarray) (w : World G) : ndarray * World G :=
  match rows with
  | [] => ([], w)
  | row :: rest =>
      let (v, rng) := embed_sample layer n_shots row (ambient w) in
      let w1 := {| ambient := rng;
                   console := if show_progress
                              then console w ++ ["sample processed"]
                              else console w;
                   layers := layers w |} in
      let (vs, w2) := embed_samples layer n_shots show_progress rest w1 in
      (v :: vs, w2)
  end.

Definition width_ok (layer : Layer) (row : list Q) : bool :=
  Z.of_nat (List.length row) =? n_atoms (config layer).

(** Modelled from the spec: [DetuningLayer.apply_layer(x, n_shots,
    show_progress)] of qrc_layer. Section 7: a "mismatched input width vs N"
    fails "at the start of [apply_layer], before any simulation work". *)
Definition apply_layer (ref : LayerRef) (a : ApplyArgs) : Ext (World G) ndarray :=
  fun w =>
    match nth_error (layers w) ref with
    | None => (inl (OtherError "AttributeError" "not a DetuningLayer"), w)
    | Some layer =>
        if forallb (width_ok layer) (a_x a) then
          let n_shots := match a_n_shots a with
                         | Some n => n
                         | None => default_n_shots num
                         end in
          let show_progress := match a_show_progress a with
                               | Some b => b
                               | None => default_show_progress num
                               end in
          let (y, w') := embed_samples layer (Z.to_nat n_shots) show_progress (a_x a) w in
          (inr y, w')
        else (inl (ValueError "input width does not match n_atoms"), w)
    end.

(** [random.seed(s)], [np.random.seed(s)] and [torch.manual_seed(s)], as
    lines 50-52 of main.py call them: each resets one ambient generator. *)
Definition seed_random (s : Z) : Ext (World G) unit :=
  fun w => (inr tt, {| ambient := {| py_random := seeded num s;
                                     np_random := np_random (ambient w);
                                     torch_random := torch_random (ambient w) |};
                       console := console w;
                       layers := layers w |}).

Definition seed_numpy (s : Z) : Ext (World G) unit :=
  fun w => (inr tt, {| ambient := {| py_random := py_random (ambient w);
                                     np_random := seeded num s;
                                     torch_random := torch_random (ambient w) |};
                       console := console w;
                       layers := layers w |}).

Definition seed_torch (s : Z) : Ext (World G) unit :=
  fun w => (inr tt, {| ambient := {| py_random := py_random (ambient w);
                                     np_random := np_random (ambient w);
                                     torch_random := seeded num s |};
                       console := console w;
                       layers := layers w |}).

End Layer.

End QrcLayer.

(** ** main.py *)

Module Main.
Import Collab.

Section Driver.
Context {W : Type} (env : Env W).

Definition say (line : string) : M W unit := poke (print env line).

(** The banners [main] prints between its stages, by their title lines. *)
Definition banner (title : string) : string :=
  ("=========================================" ++ title
   ++ "=========================================")%string.

(** [DetuningLayer(geometry=args.geometry, n_atoms=dim_reduction, ...)]. *)
Definition layer_args (args : Args) (dim_reduction : Z)
    (print_params : option bool) : LayerArgs :=
  {| la_geometry := geometry args;
     la_n_atoms := dim_reduction;
     la_lattice_spacing := lattice_spacing args;
     la_rabi_freq := rabi_freq args;
     la_t_end := evolution_time args;
     la_n_steps := time_steps args;
     la_readout_type := readout_type args;
     la_encoding_scale := encoding_scale args;
     la_print_params := print_params |}.

Definition new_DetuningLayer (a : LayerArgs) : M W LayerRef :=
  recorded (DetuningLayer env a) (EConstruct a).

(** [quantum_layer.apply_layer(x, n_shots=..., show_progress=...)]. *)
Definition call_apply_layer (layer : LayerRef) (x : ndarray) (n_shots : Z)
    (show_progress : bool) : M W ndarray :=
  let a := {| a_x := x; a_n_shots := Some n_shots;
              a_show_progress := Some show_progress |} in
  recorded (apply_layer env layer a) (EApplyLayer layer a).

Definition call_scale (x : ndarray) (spectral detuning_max : Q) : M W ndarray :=
  ext (scale_to_detuning_range env x spectral detuning_max).

(** ['cuda' if args.gpu and torch.cuda.is_available() else 'cpu'], and the
    warning that follows it. *)
Definition pick_device (args : Args) : M W string :=
  (available <- peek (cuda_is_available env) ;;
   let device := if gpu args && available then "cuda" else "cpu" in
   (if gpu args && negb available
    then say "Warning: GPU requested but not available. Using CPU instead."
    else ret tt) ;;
   ret device)%py.

(** The keyword arguments the three [train] calls share. *)
Definition train_kwargs (args : Args) (nonlinear : bool) : list (string * KwVal) :=
  [("regularization", KFloat (regularization args));
   ("nepochs", KInt (nepochs args));
   ("batchsize", KInt (batchsize args));
   ("learning_rate", KFloat (learning_rate args));
   ("verbose", KBool (negb (no_progress args)));
   ("nonlinear", KBool nonlinear)].

(** [print(f"Scaled feature range: {xs.min()} to {xs.max()}")]. *)
Definition say_range (label : string) (x : ndarray) : M W unit :=
  (lo <- pure (array_min env x) ;;
   hi <- pure (array_max env x) ;;
   say (label ++ str_float env lo ++ " to " ++ str_float env hi)%string)%py.

(** Lines 49-385: [main] once [args] is known. *)
Definition main_from (args : Args) : M W Results :=
  ((* Set random seed for reproducibility *)
   ext (random_seed env (seed args)) ;;
   ext (np_random_seed env (seed args)) ;;
   ext (torch_manual_seed env (seed args)) ;;
   say (banner "LOADING THE DATASET") ;;
   let DATA_DIR :=
     match data_dir args with
     | Some d => if (d =? "")%string then default_data_dir env else d
     | None => default_data_dir env
     end in
   loaded <-
     (if (dataset_type args =? "mnist")%string then
        ext (load_dataset env {| ld_kind := "mnist"; ld_data_dir := DATA_DIR;
                                 ld_target_size := target_size args;
                                 ld_split_ratio := None |})
      else
        let DATASET_DIR := path_join env DATA_DIR (dataset_type args) in
        found <- peek (path_exists env DATASET_DIR) ;;
        if negb found then
          raise (ValueError ("Dataset directory does not exist: " ++ DATASET_DIR)%string)
        else
          ext (load_dataset env {| ld_kind := "image_folder";
                                   ld_data_dir := DATASET_DIR;
                                   ld_target_size := target_size args;
                                   ld_split_ratio := Some (split_ratio args) |})) ;;
   let data_train := fst loaded in
   let data_test := snd loaded in
   say ("Dataset loaded: " ++ dataset_type args)%string ;;
   say ("Number of training samples: "
        ++ str_int env (n_samples (metadata data_train)))%string ;;
   say ("Number of test samples: "
        ++ str_int env (n_samples (metadata data_test)))%string ;;
   say ("Number of classes: "
        ++ str_int env (n_classes (metadata data_train)))%string ;;
   say (banner "PERFORMING FEATURE REDUCTION") ;;
   let dim_reduction := dim_reduction args in
   let method_name := lower (reduction_method args) in
   let reduction_name := upper method_name in
   reduced <-
     (if (method_name =? "pca")%string then
        say "Using PCA for feature reduction..." ;;
        fitted <- ext (apply_pca env data_train dim_reduction (num_examples args)) ;;
        let '(xs_raw, reduction_model, spectral) := fitted in
        say "Applying PCA to test data..." ;;
        test_features_raw <-
          ext (apply_pca_to_test_data env data_test reduction_model dim_reduction
                 (num_test_examples args)) ;;
        ret (xs_raw, reduction_model, spectral, test_features_raw, @None LayerRef)
      else if (method_name =? "autoencoder")%string then
        device <- pick_device args ;;
        say ("Using autoencoder for feature reduction (device: " ++ device ++ ")...")%string ;;
        fitted <- ext (apply_autoencoder env
                         {| ae_data := data_train;
                            ae_quantum_layer := None;
                            ae_encoding_dim := dim_reduction;
                            ae_num_examples := num_examples args;
                            ae_hidden_dims := autoencoder_hidden_dims args;
                            ae_alpha := None;
                            ae_beta := None;
                            ae_batch_size := autoencoder_batch_size args;
                            ae_epochs := autoencoder_epochs args;
                            ae_learning_rate := autoencoder_learning_rate args;
                            ae_quantum_update_frequency := None;
                            ae_n_shots := None;
                            ae_device := device;
                            ae_verbose := negb (no_progress args);
                            ae_use_batch_norm := true;
                            ae_dropout := 1 # 10;
                            ae_weight_decay := 1 # 100000 |}) ;;
        let '(xs_raw, reduction_model, spectral) := fitted in
        say ("Encoded data spectral range: " ++ str_float env spectral)%string ;;
        say "Applying autoencoder to test data..." ;;
        test_features_raw <-
          ext (apply_autoencoder_to_test_data env
                 {| en_data := data_test; en_model := reduction_model;
                    en_num_examples := num_test_examples args;
                    en_device := device; en_verbose := negb (no_progress args) |}) ;;
        ret (xs_raw, reduction_model, spectral, test_features_raw, @None LayerRef)
      else if (method_name =? "guided_autoencoder")%string then
        device <- pick_device args ;;
        say ("Using quantum guided autoencoder for feature reduction (device: "
             ++ device ++ ")...")%string ;;
        say "Creating quantum layer for guided autoencoder training..." ;;
        quantum_layer <- new_DetuningLayer (layer_args args dim_reduction (Some false)) ;;
        fitted <- ext (apply_guided_autoencoder env
                         {| ae_data := data_train;
                            ae_quantum_layer := Some quantum_layer;
                            ae_encoding_dim := dim_reduction;
                            ae_num_examples := num_examples args;
                            ae_hidden_dims := autoencoder_hidden_dims args;
                            ae_alpha := Some (guided_alpha args);
                            ae_beta := Some (guided_beta args);
                            ae_batch_size := guided_batch_size args;
                            ae_epochs := autoencoder_epochs args;
                            ae_learning_rate := autoencoder_learning_rate args;
                            ae_quantum_update_frequency :=
                              Some (quantum_update_frequency args);
                            ae_n_shots := Some (n_shots args);
                            ae_device := device;
                            ae_verbose := negb (no_progress args);
                            ae_use_batch_norm := true;
                            ae_dropout := 1 # 10;
                            ae_weight_decay := 1 # 100000 |}) ;;
        let '(xs_raw, reduction_model, spectral) := fitted in
        say ("Encoded data spectral range: " ++ str_float env spectral)%string ;;
        say "Applying guided autoencoder to test data..." ;;
        test_features_raw <-
          ext (apply_guided_autoencoder_to_test_data env
                 {| en_data := data_test; en_model := reduction_model;
                    en_num_examples := num_test_examples args;
                    en_device := device; en_verbose := negb (no_progress args) |}) ;;
        ret (xs_raw, reduction_model, spectral, test_features_raw, Some quantum_layer)
      else
        raise (ValueError ("Unknown reduction method: " ++ method_name)%string)) ;;
   let '(xs_raw, reduction_model, spectral, test_features_raw, local_layer) := reduced in
   let train_targets := py_slice_to (targets data_train) (num_examples args) in
   let test_targets := py_slice_to (targets data_test) (num_test_examples args) in
   say (banner "ONE-HOT ENCODING TARGETS") ;;
   let n_classes := n_classes (metadata data_train) in
   encoded <- ext (one_hot_encode env train_targets n_classes) ;;
   let ys := transpose env (fst encoded) in
   say (banner "PREPARING QUANTUM LAYER") ;;
   say ("Scaling features with spectral value: " ++ str_float env spectral)%string ;;
   xs <- call_scale xs_raw spectral (detuning_max args) ;;
   say_range "Scaled feature range: " xs ;;
   test_features <- call_scale test_features_raw spectral (detuning_max args) ;;
   say_range "Scaled test feature range: " test_features ;;
   (* Create quantum layer (reuse if we already created one for guided
      autoencoder): [method_name == "guided_autoencoder" and 'quantum_layer'
      in locals()] *)
   quantum_layer <-
     match (if (method_name =? "guided_autoencoder")%string
            then local_layer else None) with
     | Some layer =>
         say "Reusing quantum layer from guided autoencoder..." ;;
         ret layer
     | None => new_DetuningLayer (layer_args args dim_reduction None)
     end ;;
   say (banner "RUNNING QUANTUM LAYER") ;;
   say "Computing quantum embeddings for training data..." ;;
   embeddings <- call_apply_layer quantum_layer xs (n_shots args)
                   (negb (no_progress args)) ;;
   say "Computing quantum embeddings for test data..." ;;
   test_embeddings <- call_apply_layer quantum_layer test_features (n_shots args)
                        (negb (no_progress args)) ;;
   say (banner "TRAINING LINEAR CLASSIFIER ON REDUCED FEATURES") ;;
   let results := @nil (string * TrainResult) in
   lin <- ext (train env {| x_train := xs; y_train := Encoded ys;
                            x_test := test_features; y_test := Classes test_targets;
                            kwargs := train_kwargs args false |}) ;;
   let results := dict_set results (reduction_name ++ "+linear")%string lin in
   say (banner "TRAINING LINEAR CLASSIFIER ON QUANTUM EMBEDDINGS") ;;
   qrc <- ext (train env {| x_train := embeddings; y_train := Encoded ys;
                            x_test := test_embeddings; y_test := Classes test_targets;
                            kwargs := train_kwargs args false |}) ;;
   let results := dict_set results "QRC" qrc in
   say (banner "TRAINING NEURAL NETWORK ON REDUCED FEATURES") ;;
   nn <- ext (train env {| x_train := xs; y_train := Encoded ys;
                           x_test := test_features; y_test := Classes test_targets;
                           kwargs := train_kwargs args true |}) ;;
   let results := dict_set results (reduction_name ++ "+NN")%string nn in
   say ("Dataset: " ++ dataset_type args
        ++ " Reduction Method: " ++ reduction_name
        ++ " Number of training samples: " ++ str_int env (n_samples (metadata data_train))
        ++ " Number of test samples: " ++ str_int env (n_samples (metadata data_test))
        ++ " Number of classes: " ++ str_int env (Collab.n_classes (metadata data_train))
        ++ " Number of features: " ++ str_int env dim_reduction
        ++ " Number of epochs: " ++ str_int env (nepochs args)
        ++ " Batch size: " ++ str_int env (batchsize args)
        ++ " Learning rate: " ++ str_float env (learning_rate args)
        ++ " Regularization: " ++ str_float env (regularization args)
        ++ " Number of shots: " ++ str_int env (Collab.n_shots args))%string ;;
   ext (print_results env results) ;;
   (if negb (no_plot args) then ext (plot_training_results env results) else ret tt) ;;
   ret results)%py.

(** [main(args=None)]: lines 45-47 fetch the arguments when none are given. *)
Definition main (args : option Args) : M W Results :=
  (args <- match args with
           | Some a => ret a
           | None => ext (get_args env)
           end ;;
   main_from args)%py.

End Driver.

(** *** Where the matrices of a run come from *)

Section Provenance.
Context {W : Type} (env : Env W) (args : Args).

(** [xs_raw]: the codes of the training data, from the reduction method's
    fit with [dim_reduction] as the requested dimension. *)
Definition reduced_train (raw : ndarray) : Prop :=
  exists (m : ReductionModel) (spectral : Q),
    (exists d n w,
        fst (apply_pca env d (dim_reduction args) n w) = inr (raw, m, spectral))
    \/ (exists a w,
        (fst (apply_autoencoder env a w) = inr (raw, m, spectral)
         \/ fst (apply_guided_autoencoder env a w) = inr (raw, m, spectral))
        /\ ae_encoding_dim a = dim_reduction args).

(** [test_features_raw]: the codes of the test data, from the model that fit
    returned. *)
Definition reduced_test (raw : ndarray) : Prop :=
  (exists d m n w,
      fst (apply_pca_to_test_data env d m (dim_reduction args) n w) = inr raw)
  \/ (exists e w' a w xs spectral,
      ((fst (apply_autoencoder_to_test_data env e w') = inr raw
        /\ fst (apply_autoencoder env a w) = inr (xs, en_model e, spectral))
       \/ (fst (apply_guided_autoencoder_to_test_data env e w') = inr raw
           /\ fst (apply_guided_autoencoder env a w) = inr (xs, en_model e, spectral)))
      /\ ae_encoding_dim a = dim_reduction args).

(** [x] was returned by [scale_to_detuning_range(raw, spectral,
    args.detuning_max)]. *)
Definition scaled_from (raw x : ndarray) : Prop :=
  exists spectral w,
    fst (scale_to_detuning_range env raw spectral (detuning_max args) w) = inr x.

(** The arguments of the two [apply_layer] calls of [main]. *)
Definition main_apply_args (x : ndarray) : ApplyArgs :=
  {| a_x := x;
     a_n_shots := Some (n_shots args);
     a_show_progress := Some (negb (no_progress args)) |}.

(** The calls a run of [main] makes on the quantum layer: nothing, or one
    construction, then the training matrix, then the test matrix, all on the
    object the construction returned. A run that raises stops somewhere along
    this sequence; a run that returns ([true]) has made all three calls. *)
Inductive layer_use : bool -> list Event -> Prop :=
| use_nothing : layer_use false []
| use_refused pp e :
    layer_use false [EConstruct (layer_args args (dim_reduction args) pp) (inl e)]
| use_built pp layer :
    layer_use false [EConstruct (layer_args args (dim_reduction args) pp) (inr layer)]
| use_train pp layer raw xs e :
    reduced_train raw -> scaled_from raw xs ->
    layer_use false
      [EConstruct (layer_args args (dim_reduction args) pp) (inr layer);
       EApplyLayer layer (main_apply_args xs) (inl e)]
| use_both returned pp layer raw xs embeddings raw' test_features r :
    reduced_train raw -> scaled_from raw xs ->
    reduced_test raw' -> scaled_from raw' test_features ->
    (returned = true -> exists test_embeddings, r = inr test_embeddings) ->
    layer_use returned
      [EConstruct (layer_args args (dim_reduction args) pp) (inr layer);
       EApplyLayer layer (main_apply_args xs) (inr embeddings);
       EApplyLayer layer (main_apply_args test_features) r].

(** The objects the constructions of a run returned, and the objects its
    [apply_layer] calls were made on. *)
Definition constructed (log : list Event) : list LayerRef :=
  flat_map (fun e => match e with
                     | EConstruct _ (inr layer) => [layer]
                     | _ => []
                     end) log.

Definition receivers (log : list Event) : list LayerRef :=
  flat_map (fun e => match e with
                     | EApplyLayer layer _ _ => [layer]
                     | _ => []
                     end) log.

End Provenance.

(** *** What the specification says of the collaborators *)

Section Contracts.
Context {W : Type} (env : Env W).



End Contracts.

(** *** How a run of main ends *)

Section Outcome.
Context {W : Type} (env : Env W) (args : Args).

(** [DATA_DIR] of line 64: [args.data_dir] unless it is [None] or empty. *)
Definition data_root : string :=
  match data_dir args with
  | Some d => if (d =? "")%string then default_data_dir env else d
  | None => default_data_dir env
  end.

Definition seeding_succeeds : Prop :=
  succeeds (random_seed env (seed args))
  /\ succeeds (np_random_seed env (seed args))
  /\ succeeds (torch_manual_seed env (seed args)).

(** Lines 50-85 go through: the generators are seeded and the dataset is
    there and loads. *)
Definition loading_succeeds : Prop :=
  seeding_succeeds
  /\ (forall a, succeeds (load_dataset env a))
  /\ ((dataset_type args =? "mnist")%string = true
      \/ forall w, path_exists env (path_join env data_root (dataset_type args)) w = true).

(** The reduction methods of lines 108-220, as [method_name] spells them. *)
Definition known_method (method_name : string) : Prop :=
  method_name = "pca" \/ method_name = "autoencoder"
  \/ method_name = "guided_autoencoder".

(** [r] is what a [train(...)] call with the arguments [a] returned. *)
Definition trained_on (a : TrainArgs) (r : TrainResult) : Prop :=
  exists w, fst (train env a w) = inr r.

(** The [print_params] keyword of the construction a run makes: [False] at
    line 182, left out at line 263. *)
Definition expected_print_params : option bool :=
  if (lower (reduction_method args) =? "guided_autoencoder")%string
  then Some false else None.

Definition train_call (xs test_features ys : ndarray) (test_targets : list Z)
    (nonlinear : bool) : TrainArgs :=
  {| x_train := xs; y_train := Encoded ys;
     x_test := test_features; y_test := Classes test_targets;
     kwargs := train_kwargs args nonlinear |}.

(** How a run ends: it raises, having constructed the layer at most as its
    branch does, or it returns the three trained models under their labels,
    after one construction and the two [apply_layer] calls. *)
Inductive main_outcome : Exn + Results -> list Event -> Prop :=
| outcome_raised e log :
    Forall (fun ev => match ev with
                      | EConstruct a _ => la_print_params a = expected_print_params
                      | EApplyLayer _ _ _ => True
                      end) log ->
    main_outcome (inl e) log
| outcome_returned layer xs test_features embeddings test_embeddings ys
    test_targets lin qrc nn :
    known_method (lower (reduction_method args)) ->
    trained_on (train_call xs test_features ys test_targets false) lin ->
    trained_on (train_call embeddings test_embeddings ys test_targets false) qrc ->
    trained_on (train_call xs test_features ys test_targets true) nn ->
    main_outcome
      (inr [((upper (lower (reduction_method args)) ++ "+linear")%string, lin);
            ("QRC", qrc);
            ((upper (lower (reduction_method args)) ++ "+NN")%string, nn)])
      [EConstruct (layer_args args (dim_reduction args) expected_print_params)
                  (inr layer);
       EApplyLayer layer (main_apply_args args xs) (inr embeddings);
       EApplyLayer layer (main_apply_args args test_features) (inr test_embeddings)].

End Outcome.

End Main.

(** ** A small closed world

    Concrete collaborators, on which the pipeline and the layer can be run:
    a counter as random generator, a chain geometry, a uniform outcome
    distribution, and reduction methods that cut or pad each row to the
    requested width. They stand in for the real collaborators, whose code is
    not among the sources, and say nothing about them. *)

Module Demo.
Import Collab.

Definition uniform_of (state : nat) : Q :=
  (inject_Z (Z.of_nat (state mod 4)) / 4)%Q.

(** Inverse-CDF sampling: the first outcome whose cumulative probability
    exceeds [u]. *)
Fixpoint pick (u : Q) (probabilities : list Q) (k : nat) : nat :=
  match probabilities with
  | [] => k
  | p :: rest => if Qle_bool p u then pick (u - p)%Q rest (S k) else k
  end.

Definition chain (n : Z) (spacing : Q) : list (list Q) :=
  map (fun i => [inject_Z (Z.of_nat i) * spacing; 0]%Q) (seq 0 (Z.to_nat n)).

Definition van_der_waals (positions : list (list Q)) : list (list Q) :=
  map (fun a => map (fun b =>
                       let d := (hd 0 a - hd 0 b)%Q in
                       if Qeq_bool d 0 then 0%Q
                       else (1 / (d * d * d * d * d * d))%Q)
                    positions)
      positions.

Definition numerics : QrcLayer.Numerics nat :=
  {| QrcLayer.geometry_builder := fun name n spacing =>
       if (name =? "chain")%string then Some (chain n spacing) else None;
     QrcLayer.interaction_model := fun positions _ => van_der_waals positions;
     QrcLayer.final_probabilities := fun layer _ =>
       let outcomes := Nat.pow 2 (Z.to_nat (QrcLayer.n_atoms (QrcLayer.config layer))) in
       repeat (1 / inject_Z (Z.of_nat outcomes))%Q outcomes;
     QrcLayer.draw := fun rng probabilities =>
       (pick (uniform_of (QrcLayer.np_random rng)) probabilities 0,
        {| QrcLayer.py_random := QrcLayer.py_random rng;
           QrcLayer.np_random := S (QrcLayer.np_random rng);
           QrcLayer.torch_random := QrcLayer.torch_random rng |});
     QrcLayer.seeded := fun s => Z.to_nat s;
     QrcLayer.default_n_shots := 1000;
     QrcLayer.default_show_progress := true |}.

Definition World := QrcLayer.World nat.

Definition world0 : World :=
  {| QrcLayer.ambient := {| QrcLayer.py_random := 0%nat;
                            QrcLayer.np_random := 0%nat;
                            QrcLayer.torch_random := 0%nat |};
     QrcLayer.console := [];
     QrcLayer.layers := [] |}.

(** Cut or pad a row to [width] entries. *)
Definition fit_width (width : Z) (row : list Q) : list Q :=
  firstn (Z.to_nat width) (row ++ repeat 0%Q (Z.to_nat width)).

Definition encode (width : Z) (d : Dataset) (n : Z) : Exn + ndarray :=
  if width <? 0 then inl (ValueError "negative dimension")
  else inr (map (fit_width width) (py_slice_to (data d) n)).

Definition fit (d : Dataset) (width n : Z) : Ext World (ndarray * ReductionModel * Q) :=
  fun w =>
    (match encode width d n with
     | inl e => inl e
     | inr x => inr (x, {| rm_id := 0; rm_width := width |}, 1%Q)
     end, w).

Definition clamp (bound v : Q) : Q :=
  if Qle_bool v (- bound)%Q then (- bound)%Q
  else if Qle_bool bound v then bound else v.

Definition scale (x : ndarray) (spectral detuning_max : Q) : Ext World ndarray :=
  fun w =>
    (if Qle_bool 0 detuning_max
     then inr (map (map (fun v => clamp detuning_max (v * detuning_max / spectral)%Q)) x)
     else inl (ValueError "detuning_max must not be negative"), w).

Definition say (line : string) (w : World) : World :=
  {| QrcLayer.ambient := QrcLayer.ambient w;
     QrcLayer.console := QrcLayer.console w ++ [line];
     QrcLayer.layers := QrcLayer.layers w |}.

Definition digits : ndarray :=
  [[1; 2; 3]; [4; 5; 6]; [7; 8; 9]]%Q.

Definition dataset : Dataset :=
  {| data := digits;
     targets := [0; 1; 0];
     metadata := {| n_samples := 3; n_classes := 2 |} |}.

Definition trained : TrainResult :=
  {| loss := []; accs_train := []; accs_test := []; model := 0%nat |}.

Definition args : Args :=
  {| seed := 42;
     data_dir := None;
     dataset_type := "mnist";
     target_size := [28; 28];
     split_ratio := 4 # 5;
     dim_reduction := 2;
     reduction_method := "PCA";
     num_examples := 2;
     num_test_examples := 1;
     gpu := false;
     autoencoder_hidden_dims := [8];
     autoencoder_batch_size := 2;
     autoencoder_epochs := 1;
     autoencoder_learning_rate := 1 # 100;
     no_progress := false;
     geometry := "chain";
     lattice_spacing := 10;
     rabi_freq := 1;
     evolution_time := 1;
     time_steps := 10;
     readout_type := "correlation";
     encoding_scale := 1;
     guided_alpha := 1;
     guided_beta := 1;
     guided_batch_size := 2;
     quantum_update_frequency := 1;
     n_shots := 4;
     detuning_max := 6;
     regularization := 0;
     nepochs := 1;
     batchsize := 2;
     learning_rate := 1 # 100;
     no_plot := true |}.

Definition env : Env World :=
  {| get_args := fun w => (inr args, w);
     random_seed := QrcLayer.seed_random numerics;
     np_random_seed := QrcLayer.seed_numpy numerics;
     torch_manual_seed := QrcLayer.seed_torch numerics;
     print := say;
     str_int := fun _ => "<int>";
     str_float := fun _ => "<float>";
     default_data_dir := "../data/datasets";
     path_join := fun a b => (a ++ "/" ++ b)%string;
     path_exists := fun _ _ => true;
     cuda_is_available := fun _ => false;
     load_dataset := fun _ w => (inr (dataset, dataset), w);
     apply_pca := fit;
     apply_pca_to_test_data := fun d _ width n w => (encode width d n, w);
     apply_autoencoder := fun a => fit (ae_data a) (ae_encoding_dim a) (ae_num_examples a);
     apply_autoencoder_to_test_data := fun e w =>
       (encode (rm_width (en_model e)) (en_data e) (en_num_examples e), w);
     apply_guided_autoencoder := fun a =>
       fit (ae_data a) (ae_encoding_dim a) (ae_num_examples a);
     apply_guided_autoencoder_to_test_data := fun e w =>
       (encode (rm_width (en_model e)) (en_data e) (en_num_examples e), w);
     one_hot_encode := fun labels _ w =>
       (inr (map (fun t => [if t =? 0 then 1%Q else 0%Q; if t =? 0 then 0%Q else 1%Q]) labels,
             0%nat), w);
     scale_to_detuning_range := scale;
     array_min := fun _ => inr 0%Q;
     array_max := fun _ => inr 0%Q;
     transpose := fun x => x;
     DetuningLayer := QrcLayer.construct numerics;
     apply_layer := QrcLayer.apply_layer numerics;
     train := fun _ w => (inr trained, w);
     print_results := fun _ w => (inr tt, w);
     plot_training_results := fun _ w => (inr tt, w) |}.

(** A world that already holds one two-atom layer. *)
Definition chain_args (print_params : option bool) : LayerArgs :=
  Main.layer_args args 2 print_params.

Definition world1 : World := snd (QrcLayer.construct numerics (chain_args (Some false)) world0).

(** The same collaborators on a machine without the dataset folders. *)
Definition offline : Env World :=
  {| get_args := get_args env;
     random_seed := random_seed env;
     np_random_seed := np_random_seed env;
     torch_manual_seed := torch_manual_seed env;
     print := print env;
     str_int := str_int env;
     str_float := str_float env;
     default_data_dir := default_data_dir env;
     path_join := path_join env;
     path_exists := fun _ _ => false;
     cuda_is_available := cuda_is_available env;
     load_dataset := load_dataset env;
     apply_pca := apply_pca env;
     apply_pca_to_test_data := apply_pca_to_test_data env;
     apply_autoencoder := apply_autoencoder env;
     apply_autoencoder_to_test_data := apply_autoencoder_to_test_data env;
     apply_guided_autoencoder := apply_guided_autoencoder env;
     apply_guided_autoencoder_to_test_data := apply_guided_autoencoder_to_test_data env;
     one_hot_encode := one_hot_encode env;
     scale_to_detuning_range := scale_to_detuning_range env;
     array_min := array_min env;
     array_max := array_max env;
     transpose := transpose env;
     DetuningLayer := DetuningLayer env;
     apply_layer := apply_layer env;
     train := train env;
     print_results := print_results env;
     plot_training_results := plot_training_results env |}.

(** [args] for an image folder named polyps. *)
Definition folder_args : Args :=
  {| seed := seed args;
     data_dir := Some "";
     dataset_type := "polyps";
     target_size := target_size args;
     split_ratio := split_ratio args;
     dim_reduction := dim_reduction args;
     reduction_method := reduction_method args;
     num_examples := num_examples args;
     num_test_examples := num_test_examples args;
     gpu := gpu args;
     autoencoder_hidden_dims := autoencoder_hidden_dims args;
     autoencoder_batch_size := autoencoder_batch_size args;
     autoencoder_epochs := autoencoder_epochs args;
     autoencoder_learning_rate := autoencoder_learning_rate args;
     no_progress := no_progress args;
     geometry := geometry args;
     lattice_spacing := lattice_spacing args;
     rabi_freq := rabi_freq args;
     evolution_time := evolution_time args;
     time_steps := time_steps args;
     readout_type := readout_type args;
     encoding_scale := encoding_scale args;
     guided_alpha := guided_alpha args;
     guided_beta := guided_beta args;
     guided_batch_size := guided_batch_size args;
     quantum_update_frequency := quantum_update_frequency args;
     n_shots := n_shots args;
     detuning_max := detuning_max args;
     regularization := regularization args;
     nepochs := nepochs args;
     batchsize := batchsize args;
     learning_rate := learning_rate args;
     no_plot := no_plot args |}.

End Demo.

(** * Properties *)

(** ** Running the monad *)

Section Stepping.
Import Collab.
Context {W : Type}.

Lemma run_eta {A : Type} (r : Run W A) :
  {| result := result r; final := final r; calls := calls r |} = r.
Proof. destruct r; reflexivity. Qed.

Lemma bind_ret {A B : Type} (a : A) (k : A -> M W B) (w : W) :
  bind (ret a) k w = k a w.
Proof. unfold bind, ret; cbn. apply run_eta. Qed.

Lemma bind_raise {A B : Type} (e : Exn) (k : A -> M W B) (w : W) :
  bind (raise e) k w = {| result := inl e; final := w; calls := [] |}.
Proof. reflexivity. Qed.

Lemma bind_poke {B : Type} (f : W -> W) (k : unit -> M W B) (w : W) :
  bind (poke f) k w = k tt (f w).
Proof. unfold bind, poke; cbn. apply run_eta. Qed.

Lemma bind_peek {A B : Type} (f : W -> A) (k : A -> M W B) (w : W) :
  bind (peek f) k w = k (f w) w.
Proof. unfold bind, peek; cbn. apply run_eta. Qed.

Lemma bind_pure {A B : Type} (r : Exn + A) (k : A -> M W B) (w : W) :
  bind (pure r) k w =
  match r with
  | inl e => {| result := inl e; final := w; calls := [] |}
  | inr a => k a w
  end.
Proof. unfold bind, pure; destruct r; cbn; [reflexivity | apply run_eta]. Qed.

Lemma bind_ext {A B : Type} (f : Ext W A) (k : A -> M W B) (w : W) :
  bind (ext f) k w =
  match fst (f w) with
  | inl e => {| result := inl e; final := snd (f w); calls := [] |}
  | inr a => k a (snd (f w))
  end.
Proof. unfold bind, ext; cbn. destruct (fst (f w)); [reflexivity | apply run_eta]. Qed.

Lemma bind_recorded {A B : Type} (f : Ext W A) (ev : Exn + A -> Event)
    (k : A -> M W B) (w : W) :
  bind (recorded f ev) k w =
  match fst (f w) with
  | inl e => {| result := inl e; final := snd (f w); calls := [ev (inl e)] |}
  | inr a => let r := k a (snd (f w)) in
             {| result := result r; final := final r; calls := ev (inr a) :: calls r |}
  end.
Proof. unfold bind, recorded; cbn. destruct (fst (f w)); reflexivity. Qed.

Lemma bind_assoc {A B C : Type} (m : M W A) (k : A -> M W B) (k' : B -> M W C)
    (w : W) :
  bind (bind m k) k' w = bind m (fun a => bind (k a) k') w.
Proof.
  unfold bind. destruct (result (m w)); cbn; [reflexivity |].
  destruct (result (k a (final (m w)))); cbn; [reflexivity |].
  now rewrite app_assoc.
Qed.

End Stepping.


(** ** models.py: NeuralNetwork *)

Section CaseFacts.

Lemma nat_of_ascii_lower (c : ascii) :
  nat_of_ascii (ascii_lower c) =
  if ((65 <=? nat_of_ascii c) && (nat_of_ascii c <=? 90))%nat
  then (nat_of_ascii c + 32)%nat else nat_of_ascii c.
Proof.
  unfold ascii_lower.
  destruct ((65 <=? nat_of_ascii c) && (nat_of_ascii c <=? 90))%nat eqn:Hup;
    [| reflexivity].
  apply andb_true_iff in Hup. destruct Hup as [_ Hhi].
  apply Nat.leb_le in Hhi. apply nat_ascii_embedding. lia.
Qed.

Lemma nat_of_ascii_inj (a b : ascii) : nat_of_ascii a = nat_of_ascii b -> a = b.
Proof.
  intros H. rewrite <- (ascii_nat_embedding a), <- (ascii_nat_embedding b).
  now rewrite H.
Qed.

Lemma same_letter_lower (a b : ascii) :
  same_letter a b <-> ascii_lower a = ascii_lower b.
Proof.
  unfold same_letter. cbv zeta. split.
  - intros H. apply nat_of_ascii_inj. rewrite !nat_of_ascii_lower.
    destruct (Nat.leb_spec 65 (nat_of_ascii a)), (Nat.leb_spec (nat_of_ascii a) 90),
      (Nat.leb_spec 65 (nat_of_ascii b)), (Nat.leb_spec (nat_of_ascii b) 90);
      cbn; lia.
  - intros H. apply (f_equal nat_of_ascii) in H. rewrite !nat_of_ascii_lower in H.
    destruct (Nat.leb_spec 65 (nat_of_ascii a)), (Nat.leb_spec (nat_of_ascii a) 90),
      (Nat.leb_spec 65 (nat_of_ascii b)), (Nat.leb_spec (nat_of_ascii b) 90);
      cbn in H; lia.
Qed.

Lemma eq_nocase_lower (s t : string) : eq_nocase s t <-> lower s = lower t.
Proof.
  revert t. induction s as [|a s IH]; intros [|b t]; cbn; try (split; [tauto | discriminate]).
  - tauto.
  - rewrite same_letter_lower, IH. split.
    + intros [-> ->]. reflexivity.
    + intros H. injection H. auto.
Qed.

(** The test [activation.lower() == name] on a lower-case name. *)
Lemma lower_eqb_nocase (s name : string) :
  lower name = name -> (lower s =? name)%string = true <-> eq_nocase s name.
Proof.
  intros Hname. rewrite String.eqb_eq, eq_nocase_lower, Hname. reflexivity.
Qed.

End CaseFacts.

Section NeuralNetworkFacts.
Import Models.

Lemma select_activation_rejects (activation : ActivationArg) :
  is_ValueError (select_activation activation) <-> rejected activation.
Proof.
  unfold rejected, known_activation. destruct activation as [s | v]; cbn.
  - pose proof (lower_eqb_nocase s "relu" eq_refl) as H1.
    pose proof (lower_eqb_nocase s "leaky_relu" eq_refl) as H2.
    pose proof (lower_eqb_nocase s "tanh" eq_refl) as H3.
    pose proof (lower_eqb_nocase s "sigmoid" eq_refl) as H4.
    destruct (lower s =? "relu")%string; cbn.
    { split; [tauto | intros [s' [[= <-] Hno]]; apply Hno; tauto]. }
    destruct (lower s =? "leaky_relu")%string; cbn.
    { split; [tauto | intros [s' [[= <-] Hno]]; apply Hno; tauto]. }
    destruct (lower s =? "tanh")%string; cbn.
    { split; [tauto | intros [s' [[= <-] Hno]]; apply Hno; tauto]. }
    destruct (lower s =? "sigmoid")%string; cbn.
    { split; [tauto | intros [s' [[= <-] Hno]]; apply Hno; tauto]. }
    split; [intros _ | tauto].
    exists s. split; [reflexivity |].
    intros [H | [H | [H | H]]];
      [apply H1 in H | apply H2 in H | apply H3 in H | apply H4 in H]; discriminate.
  - split; [tauto | intros [s [[=] _]]].
Qed.

Lemma select_activation_message (s : string) (e : Exn) :
  select_activation (ActStr s) = inl e -> e = unknown_activation s.
Proof.
  cbn. repeat (destruct (lower s =? _)%string; [discriminate |]).
  now intros [= <-].
Qed.

End NeuralNetworkFacts.

(** C9, as amended: the activation check of [NeuralNetwork.__init__] raises
    [ValueError] if and only if [activation] is a string that is none of
    "relu", "leaky_relu", "tanh", "sigmoid" up to case, and then the
    constructor raises that error; a non-string value is accepted unchecked
    and is the [act_fn] the network is built with. Whatever else the
    constructor raises comes from the torch constructors it calls. *)
Theorem NeuralNetwork_init_activation_check
    (T : Models.TorchNN) (input_dim output_dim : Z) (hidden_dims : list Z)
    (activation : Models.ActivationArg) (dropout : Q) (batch_norm : bool) :
  let init := Models.NeuralNetwork_init T input_dim output_dim hidden_dims
                activation dropout batch_norm in
  let build := fun act_fn =>
                 Models.build_network T input_dim output_dim hidden_dims
                   act_fn dropout batch_norm in
  (is_ValueError (Models.select_activation activation) <-> Models.rejected activation)
  /\ (forall s, activation = Models.ActStr s -> ~ Models.known_activation s ->
                init = inl (Models.unknown_activation s))
  /\ (forall v, activation = Models.ActVal v -> init = build v)
  /\ (~ Models.rejected activation ->
      exists act_fn, Models.select_activation activation = inr act_fn
                     /\ init = build act_fn).
Proof.
  cbn zeta. split; [apply select_activation_rejects |].
  split; [| split].
  - intros s -> Hno. unfold Models.NeuralNetwork_init.
    destruct (Models.select_activation (Models.ActStr s)) as [e | act_fn] eqn:Hsel.
    + cbn. now rewrite (select_activation_message s e Hsel).
    + exfalso.
      assert (Models.rejected (Models.ActStr s)) as Hrej by (exists s; auto).
      apply select_activation_rejects in Hrej. rewrite Hsel in Hrej. exact Hrej.
  - intros v ->. reflexivity.
  - intros Hok. unfold Models.NeuralNetwork_init.
    destruct (Models.select_activation activation) as [e | act_fn] eqn:Hsel.
    + exfalso. apply Hok. apply select_activation_rejects. rewrite Hsel.
      destruct activation as [s | v]; [| discriminate].
      now rewrite (select_activation_message s e Hsel).
    + exists act_fn. split; reflexivity.
Qed.

(** C9, as stated, fails: with [activation="relu"] and [dropout=1.5] the
    constructor raises [ValueError], from [nn.Dropout]. *)
Lemma NeuralNetwork_dropout_counterexample :
  ~ (is_ValueError
       (Models.NeuralNetwork_init Models.pytorch 4 2 [100; 100]
          (Models.ActStr "relu") (3 # 2) false)
     <-> Models.rejected (Models.ActStr "relu")).
Proof.
  intros [Hraise _].
  assert (Models.rejected (Models.ActStr "relu")) as Hrej by (apply Hraise; exact I).
  apply select_activation_rejects in Hrej. exact Hrej.
Qed.

(** ** models.py: QRCModel *)

(** C10: without a [classifier] argument the attribute holds the class
    [LinearClassifier] itself, which is no instance, and [fit] runs the same
    whatever the attribute holds. *)
Theorem QRCModel_classifier_unused
    {W : Type} (env : Collab.Env W) (quantum_layer : Collab.LayerRef) :
  Models.classifier (Models.QRCModel_init quantum_layer None)
  = Models.LinearClassifier_class
  /\ (forall m, Models.LinearClassifier_class <> Models.Instance m)
  /\ (forall c1 c2 x_train y_train x_test y_test kwargs w,
         Models.QRCModel_fit env
           {| Models.quantum_layer := quantum_layer; Models.classifier := c1 |}
           x_train y_train x_test y_test kwargs w
         = Models.QRCModel_fit env
             {| Models.quantum_layer := quantum_layer; Models.classifier := c2 |}
             x_train y_train x_test y_test kwargs w).
Proof.
  split; [reflexivity |]. split; [discriminate |].
  intros. reflexivity.
Qed.

(** ** main.py: the calls on the quantum layer *)

Section MainCalls.
Import Collab Main.
Context {W : Type} (env : Env W).

Ltac simp := cbn [calls result final ret raise].

Ltac provenance :=
  unfold reduced_train, reduced_test, scaled_from; eauto 15.

Ltac finish_run :=
  simp;
  solve [ apply use_nothing | apply use_refused | apply use_built
        | eapply use_train; provenance
        | eapply use_both; first [ discriminate | provenance ] ].

(** One step of a run: the next call of the program, with a case for each
    way it can end. *)
Ltac step :=
  lazymatch goal with
  | |- context [bind (bind _ _) _ _] => rewrite bind_assoc
  | |- context [bind (poke ?f) _ ?w] =>
      rewrite bind_poke; generalize (f w); intro
  | |- context [bind (peek _) _ _] => rewrite bind_peek
  | |- context [bind (ret _) _ _] => rewrite bind_ret
  | |- context [bind (raise _) _ _] => rewrite bind_raise
  | |- context [bind (pure ?r) _ _] =>
      rewrite bind_pure; destruct r eqn:?; [ finish_run | ]
  | |- context [bind (ext ?f) _ ?w] =>
      let H := fresh "Hcall" in
      rewrite bind_ext; destruct (f w) as [[?|?] ?] eqn:H;
      apply (f_equal fst) in H; cbn [fst snd] in H |- *; [ finish_run | ]
  | |- context [bind (recorded ?f _) _ ?w] =>
      let H := fresh "Hcall" in
      rewrite bind_recorded; destruct (f w) as [[?|?] ?] eqn:H;
      apply (f_equal fst) in H; cbn [fst snd] in H |- *; [ finish_run | ]
  | |- context [bind (if ?b then _ else _) _ _] => destruct b eqn:?
  | |- context [bind (match (if ?b then _ else _) with Some _ => _ | None => _ end) _ _] =>
      destruct b eqn:?
  | |- context [bind (match ?o with Some _ => _ | None => _ end) _ _] => destruct o eqn:?
  | |- context [bind (let (_, _) := ?p in _) _ _] => destruct p
  end; simp.

(** Every run of [main] uses the quantum layer as [layer_use] says. *)
Lemma main_layer_use (args : Args) (w : W) :
  layer_use env args (returned (main_from env args w)) (calls (main_from env args w)).
Proof.
  unfold returned, main_from, say_range, call_scale, new_DetuningLayer,
    call_apply_layer, pick_device, say.
  repeat step.
  all: finish_run.
Qed.

(** The two calls of [fit]. *)
Lemma fit_calls (self : Models.QRCModel) (x_train : ndarray) (y_train : Labels)
    (x_test : ndarray) (y_test : Labels) (kwargs : list (string * KwVal)) (w : W) :
  let train_call := {| a_x := x_train; a_n_shots := None; a_show_progress := None |} in
  let test_call := {| a_x := x_test; a_n_shots := None; a_show_progress := None |} in
  exists r1 tail,
    calls (Models.QRCModel_fit env self x_train y_train x_test y_test kwargs w)
    = EApplyLayer (Models.quantum_layer self) train_call r1 :: tail
    /\ (tail = []
        \/ exists r2, tail = [EApplyLayer (Models.quantum_layer self) test_call r2]).
Proof.
  cbv zeta. unfold Models.QRCModel_fit, Models.apply_layer_x.
  rewrite bind_poke, bind_recorded.
  destruct (fst (apply_layer env _ _ _)) as [e | train_embeddings]; simp.
  { eexists _, []. split; [reflexivity | now left]. }
  rewrite bind_poke, bind_recorded.
  destruct (fst (apply_layer env _ _ _)) as [e | test_embeddings]; simp.
  { eexists _, _. split; [reflexivity | right; eexists; reflexivity]. }
  unfold ext; simp.
  eexists _, _. split; [reflexivity | right; eexists; reflexivity].
Qed.

End MainCalls.

(** [main] is [main_from] once the arguments are there. *)
Section MainEntry.
Import Collab Main.
Context {W : Type} (env : Env W).

Lemma main_runs_main_from (args : option Args) (w : W) :
  (calls (main env args w) = [] /\ returned (main env args w) = false)
  \/ exists a w', calls (main env args w) = calls (main_from env a w')
                  /\ returned (main env args w) = returned (main_from env a w').
Proof.
  unfold main, returned. destruct args as [a |].
  - right. exists a, w. rewrite bind_ret. split; reflexivity.
  - rewrite bind_ext. destruct (fst (get_args env w)) as [e | a].
    + left. split; reflexivity.
    + right. eexists _, _. split; reflexivity.
Qed.

End MainEntry.

Section MainFacts.
Import Collab Main.
Context {W : Type} (env : Env W).





End MainFacts.

(** C1, as amended: every [apply_layer] call of [main] passes [x],
    [n_shots=args.n_shots] and the boolean [show_progress=not
    args.no_progress]; the two calls of [QRCModel.fit] pass [x] alone. *)
Theorem apply_layer_call_arguments {W : Type} (env : Collab.Env W) :
  (forall args w,
      Forall (fun e => match e with
                       | Collab.EApplyLayer _ a _ =>
                           Collab.a_n_shots a = Some (Collab.n_shots args)
                           /\ Collab.a_show_progress a
                              = Some (negb (Collab.no_progress args))
                       | Collab.EConstruct _ _ => True
                       end)
             (Collab.calls (Main.main_from env args w)))
  /\ (forall self x_train y_train x_test y_test kwargs w,
         Forall (fun e => match e with
                          | Collab.EApplyLayer layer a _ =>
                              layer = Models.quantum_layer self
                              /\ (Collab.a_x a = x_train \/ Collab.a_x a = x_test)
                              /\ Collab.a_n_shots a = None
                              /\ Collab.a_show_progress a = None
                          | Collab.EConstruct _ _ => False
                          end)
                (Collab.calls
                   (Models.QRCModel_fit env self x_train y_train x_test y_test
                      kwargs w))).
Proof.
  split.
  - intros args w. pose proof (main_layer_use env args w) as Huse.
    inversion Huse; repeat (constructor; cbn [main_apply_args a_n_shots a_show_progress]);
      auto.
  - intros self x_train y_train x_test y_test kwargs w.
    destruct (fit_calls env self x_train y_train x_test y_test kwargs w)
      as (r1 & tail & -> & [-> | [r2 ->]]);
      repeat first [apply Forall_cons | apply Forall_nil | split]; cbn; auto.
Qed.

(** C1, as stated, fails at [QRCModel.fit]: its calls leave [n_shots] and
    [show_progress] out. *)
Lemma fit_call_arguments_counterexample :
  ~ Forall Collab.supplies_all
      (Collab.calls
         (Models.QRCModel_fit Demo.env (Models.QRCModel_init 0%nat None)
            [[0; 0]]%Q (Collab.Classes [0]) [[0; 0]]%Q (Collab.Classes [0]) []
            Demo.world1)).
Proof.
  intros Hall.
  destruct (fit_calls Demo.env (Models.QRCModel_init 0%nat None)
              [[0; 0]]%Q (Collab.Classes [0]) [[0; 0]]%Q (Collab.Classes [0]) []
              Demo.world1) as (r1 & tail & Hcalls & _).
  rewrite Hcalls in Hall. inversion Hall as [|e rest Hhead _]; subst.
  destruct Hhead as [Hshots _]. apply Hshots. reflexivity.
Qed.



(** ** The closed world keeps the contracts *)

Section DemoFacts.
Import Collab.







End DemoFacts.



(** ** qrc_layer: what a call reads and what it writes *)

Section LayerFacts.
Import Collab QrcLayer.
Context {G : Type} (num : Numerics G).

Lemma embed_samples_layers (layer : Layer) (n_shots : nat) (p : bool)
    (rows : ndarray) (w : World G) :
  layers (snd (embed_samples num layer n_shots p rows w)) = layers w.
Proof.
  revert w. induction rows as [|row rows IH]; intros w; cbn; [reflexivity |].
  destruct (embed_sample num layer n_shots row (ambient w)) as [v rng].
  match goal with
  | |- context [embed_samples num layer n_shots p rows ?a] =>
      specialize (IH a); destruct (embed_samples num layer n_shots p rows a)
  end.
  exact IH.
Qed.

(** [apply_layer] writes no layer object. *)
Lemma apply_layer_layers (ref : LayerRef) (a : ApplyArgs) (w : World G) :
  layers (snd (apply_layer num ref a w)) = layers w.
Proof.
  unfold apply_layer. destruct (nth_error (layers w) ref) as [layer |]; [| reflexivity].
  destruct (forallb (width_ok layer) (a_x a)); [| reflexivity].
  pose proof (embed_samples_layers layer
                (Z.to_nat match a_n_shots a with
                          | Some n => n
                          | None => default_n_shots num
                          end)
                match a_show_progress a with
                | Some b => b
                | None => default_show_progress num
                end (a_x a) w) as H.
  destruct (embed_samples num layer _ _ (a_x a) w). exact H.
Qed.

End LayerFacts.

(** C6: [apply_layer] leaves the layer objects, with their configuration,
    atoms and interactions, as they were; and a run of [main] calls
    [apply_layer] only on the one layer it constructed, first with the
    training matrix and then with the test matrix. *)
Theorem layer_fixed_and_reused :
  (forall (G : Type) (num : QrcLayer.Numerics G) ref a (w : QrcLayer.World G),
      QrcLayer.layers (snd (QrcLayer.apply_layer num ref a w)) = QrcLayer.layers w)
  /\ (forall (W : Type) (env : Collab.Env W) args (w : W),
         let run := Main.main_from env args w in
         (forall layer, In layer (Main.receivers (Collab.calls run)) ->
                        Main.constructed (Collab.calls run) = [layer])
         /\ (Collab.returned run = true ->
             exists layer, Main.constructed (Collab.calls run) = [layer]
                           /\ Main.receivers (Collab.calls run) = [layer; layer])).
Proof.
  split; [intros; apply apply_layer_layers |].
  intros W env args w. cbv zeta.
  pose proof (main_layer_use env args w) as Huse.
  inversion Huse; cbn; split; try contradiction; try discriminate.
  - intros layer0 [<- | []]. reflexivity.
  - intros layer0 [<- | [<- | []]]; reflexivity.
  - eauto.
Qed.

(** ** models.py: the network NeuralNetwork builds *)

Section NeuralNetworkMore.
Import Models.

Lemma pytorch_faithful : faithful pytorch.
Proof.
  unfold faithful, pytorch; cbn. refine (conj _ (conj _ (conj _ (conj _ _)))).
  - intros i o m. destruct ((i <? 0) || (o <? 0)); [discriminate | now intros [= <-]].
  - intros d m. destruct (d <? 0); [discriminate | now intros [= <-]].
  - intros p m. destruct (Qle_bool 0 p && Qle_bool p 1);
      [now intros [= <-] | discriminate].
  - intros d m. now intros [= <-].
  - intros l m. destruct (forallb is_module l); [now intros [= <-] | discriminate].
Qed.

(** The loop over [hidden_dims] appends the blocks of [architecture]. *)
Lemma hidden_layers_blocks (T : TorchNN) (act_fn : PyVal) (dropout : Q)
    (batch_norm : bool) (hidden_dims : list Z) :
  faithful T ->
  forall layers prev_dim layers' prev_dim' output_dim,
    hidden_layers T act_fn dropout batch_norm hidden_dims layers prev_dim
    = inr (layers', prev_dim') ->
    layers' ++ [VModule (MLinear prev_dim' output_dim); VModule (MSoftmax 1)]
    = layers ++ architecture act_fn dropout batch_norm prev_dim hidden_dims output_dim.
Proof.
  intros (Hlin & Hbn & Hdrop & _ & _).
  induction hidden_dims as [|dim rest IH]; intros layers prev_dim layers' prev_dim' output_dim;
    cbn [hidden_layers architecture].
  - now intros [= <- <-].
  - unfold bindE at 1.
    destruct (torch_Linear T prev_dim dim) as [e | lin] eqn:Hl; [discriminate |].
    apply Hlin in Hl. subst lin. unfold hidden_block.
    destruct batch_norm; cbn [bindE].
    + destruct (torch_BatchNorm1d T dim) as [e | bn] eqn:Hb; [discriminate |].
      apply Hbn in Hb. subst bn. cbn [bindE].
      destruct (Qpositive dropout); cbn [bindE].
      * destruct (torch_Dropout T dropout) as [e | d] eqn:Hd; [discriminate |].
        apply Hdrop in Hd. subst d. cbn [bindE].
        intros Hrest. rewrite (IH _ _ _ _ output_dim Hrest).
        now rewrite <- !app_assoc.
      * intros Hrest. rewrite (IH _ _ _ _ output_dim Hrest).
        now rewrite <- !app_assoc.
    + destruct (Qpositive dropout); cbn [bindE].
      * destruct (torch_Dropout T dropout) as [e | d] eqn:Hd; [discriminate |].
        apply Hdrop in Hd. subst d. cbn [bindE].
        intros Hrest. rewrite (IH _ _ _ _ output_dim Hrest).
        now rewrite <- !app_assoc.
      * intros Hrest. rewrite (IH _ _ _ _ output_dim Hrest).
        now rewrite <- !app_assoc.
Qed.

Lemma build_network_architecture (T : TorchNN) (input_dim output_dim : Z)
    (hidden_dims : list Z) (act_fn : PyVal) (dropout : Q) (batch_norm : bool)
    (m : Module) :
  faithful T ->
  build_network T input_dim output_dim hidden_dims act_fn dropout batch_norm = inr m ->
  m = MSequential (architecture act_fn dropout batch_norm input_dim hidden_dims
                     output_dim).
Proof.
  intros HT. pose proof HT as (Hlin & _ & _ & Hsm & Hseq).
  unfold build_network, bindE.
  destruct (hidden_layers T act_fn dropout batch_norm hidden_dims [] input_dim)
    as [e | [layers prev_dim]] eqn:Hhid; [discriminate |].
  cbn [fst snd].
  destruct (torch_Linear T prev_dim output_dim) as [e | out] eqn:Hout; [discriminate |].
  destruct (torch_Softmax T 1) as [e | sm] eqn:Hsoft; [discriminate |].
  intros Hm. apply Hseq in Hm. apply Hlin in Hout. apply Hsm in Hsoft. subst.
  rewrite <- app_assoc. cbn [app].
  now rewrite (hidden_layers_blocks T act_fn dropout batch_norm hidden_dims HT
                 _ _ _ _ output_dim Hhid).
Qed.

Lemma init_architecture (T : TorchNN) (input_dim output_dim : Z)
    (hidden_dims : list Z) (activation : ActivationArg) (dropout : Q)
    (batch_norm : bool) (m : Module) :
  faithful T ->
  NeuralNetwork_init T input_dim output_dim hidden_dims activation dropout batch_norm
  = inr m ->
  exists act_fn,
    select_activation activation = inr act_fn
    /\ m = MSequential (architecture act_fn dropout batch_norm input_dim hidden_dims
                          output_dim).
Proof.
  intros HT. unfold NeuralNetwork_init, bindE.
  destruct (select_activation activation) as [e | act_fn]; [discriminate |].
  intros Hm. exists act_fn. split; [reflexivity |].
  now apply build_network_architecture with (T := T).
Qed.

Lemma architecture_linear_dims (act_fn : PyVal) (dropout : Q) (batch_norm : bool)
    (hidden_dims : list Z) :
  not_linear act_fn ->
  forall fan_in output_dim,
    linear_dims (architecture act_fn dropout batch_norm fan_in hidden_dims output_dim)
    = combine (fan_in :: hidden_dims) (hidden_dims ++ [output_dim]).
Proof.
  intros Hact. induction hidden_dims as [|dim rest IH]; intros fan_in output_dim.
  - reflexivity.
  - cbn [architecture]. unfold linear_dims, hidden_block in *.
    rewrite !flat_map_app. cbn [flat_map app].
    assert (forall l, (match act_fn with
                       | VModule (MLinear i o) => [(i, o)]
                       | _ => []
                       end ++ l) = l) as Hskip.
    { intros l. destruct act_fn as [[]|]; cbn in *; solve [reflexivity | contradiction]. }
    rewrite Hskip.
    destruct batch_norm, (Qpositive dropout); cbn; now rewrite IH.
Qed.

Lemma select_activation_not_linear (s : string) (act_fn : PyVal) :
  select_activation (ActStr s) = inr act_fn -> not_linear act_fn.
Proof.
  cbn. repeat (destruct (lower s =? _)%string; [now intros [= <-] |]).
  discriminate.
Qed.

Lemma architecture_ends_in_softmax (act_fn : PyVal) (dropout : Q)
    (batch_norm : bool) (hidden_dims : list Z) :
  forall fan_in output_dim,
  exists front,
    architecture act_fn dropout batch_norm fan_in hidden_dims output_dim
    = front ++ [VModule (MSoftmax 1)].
Proof.
  induction hidden_dims as [|dim rest IH]; intros fan_in output_dim; cbn [architecture].
  - now exists [VModule (MLinear fan_in output_dim)].
  - destruct (IH dim output_dim) as [front ->].
    eexists. now rewrite app_assoc.
Qed.

Lemma sequential_forward_app {X : Type} (call : PyVal -> X -> Exn + X)
    (l1 l2 : list PyVal) (x : X) :
  sequential_forward call (l1 ++ l2) x =
  match sequential_forward call l1 x with
  | inl e => inl e
  | inr y => sequential_forward call l2 y
  end.
Proof.
  revert x. induction l1 as [|c l1 IH]; intros x; cbn; [reflexivity |].
  destruct (call c x); [reflexivity | apply IH].
Qed.

(** Without a positive [dropout], neither [nn.Dropout] nor the value of
    [dropout] has a part in the loop. *)
Lemma hidden_layers_without_dropout (T : TorchNN) (d : Q -> Exn + Module)
    (act_fn : PyVal) (dropout dropout' : Q) (batch_norm : bool)
    (hidden_dims : list Z) :
  Qpositive dropout = false -> Qpositive dropout' = false ->
  forall layers prev_dim,
    hidden_layers (with_Dropout T d) act_fn dropout' batch_norm hidden_dims layers prev_dim
    = hidden_layers T act_fn dropout batch_norm hidden_dims layers prev_dim.
Proof.
  intros Hd Hd'. induction hidden_dims as [|dim rest IH]; intros layers prev_dim;
    cbn [hidden_layers]; [reflexivity |].
  rewrite Hd, Hd'. cbn [with_Dropout torch_Linear torch_BatchNorm1d].
  destruct (torch_Linear T prev_dim dim); cbn [bindE]; [reflexivity |].
  destruct batch_norm; cbn [bindE].
  - destruct (torch_BatchNorm1d T dim); cbn [bindE]; [reflexivity | apply IH].
  - apply IH.
Qed.

End NeuralNetworkMore.

(** X5: what a successful [NeuralNetwork.__init__] returns is the stack its
    arguments describe: for each entry of [hidden_dims] a linear layer fed by
    the width before it, batch normalisation if [batch_norm], the activation,
    dropout if [dropout > 0]; then the output layer and [Softmax(dim=1)]. *)
Theorem NeuralNetwork_architecture (T : Models.TorchNN) (input_dim output_dim : Z)
    (hidden_dims : list Z) (activation : Models.ActivationArg) (dropout : Q)
    (batch_norm : bool) (layers : Models.Module) :
  Models.faithful T ->
  Models.NeuralNetwork_init T input_dim output_dim hidden_dims activation dropout
    batch_norm = inr layers ->
  exists act_fn,
    Models.select_activation activation = inr act_fn
    /\ layers = Models.MSequential
                  (Models.architecture act_fn dropout batch_norm input_dim
                     hidden_dims output_dim).
Proof. apply init_architecture. Qed.

(** The default network on four features and two classes. *)
Lemma NeuralNetwork_architecture_witness :
  Models.faithful Models.pytorch
  /\ exists act_fn,
       Models.select_activation (Models.ActStr "relu") = inr act_fn
       /\ Models.MSequential
            [Models.VModule (Models.MLinear 4 100); Models.VModule Models.MReLU;
             Models.VModule (Models.MLinear 100 100); Models.VModule Models.MReLU;
             Models.VModule (Models.MLinear 100 2);
             Models.VModule (Models.MSoftmax 1)]
          = Models.MSequential
              (Models.architecture act_fn 0 false 4 [100; 100] 2).
Proof.
  split; [exact pytorch_faithful |].
  apply (NeuralNetwork_architecture Models.pytorch 4 2 [100; 100]
           (Models.ActStr "relu") 0 false _ pytorch_faithful).
  reflexivity.
Defined.

(** X6: with an activation given by name, the linear layers of a successfully
    built network chain: the first takes [input_dim], each next one takes what
    the one before it gives, and the last gives [output_dim]. *)
Theorem NeuralNetwork_linear_layers_chain (T : Models.TorchNN)
    (input_dim output_dim : Z) (hidden_dims : list Z) (name : string)
    (dropout : Q) (batch_norm : bool) (layers : Models.Module) :
  Models.faithful T ->
  Models.NeuralNetwork_init T input_dim output_dim hidden_dims
    (Models.ActStr name) dropout batch_norm = inr layers ->
  exists children,
    layers = Models.MSequential children
    /\ Models.linear_dims children
       = combine (input_dim :: hidden_dims) (hidden_dims ++ [output_dim]).
Proof.
  intros HT Hinit.
  destruct (init_architecture T _ _ _ _ _ _ _ HT Hinit) as (act_fn & Hact & ->).
  eexists. split; [reflexivity |].
  apply architecture_linear_dims. now apply select_activation_not_linear with name.
Qed.

Lemma NeuralNetwork_linear_layers_chain_witness :
  Models.faithful Models.pytorch
  /\ exists children,
       Models.MSequential
         [Models.VModule (Models.MLinear 4 8); Models.VModule (Models.MBatchNorm1d 8);
          Models.VModule Models.MTanh; Models.VModule (Models.MDropout (1 # 2));
          Models.VModule (Models.MLinear 8 3); Models.VModule (Models.MSoftmax 1)]
       = Models.MSequential children
       /\ Models.linear_dims children = [(4, 8); (8, 3)].
Proof.
  split; [exact pytorch_faithful |].
  apply (NeuralNetwork_linear_layers_chain Models.pytorch 4 3 [8] "Tanh" (1 # 2) true
           _ pytorch_faithful).
  reflexivity.
Defined.

(** X7: a [dropout] that is not positive is never handed to [nn.Dropout]: the
    constructor's result is the same for every such value, negative ones
    included, and whatever [nn.Dropout] would do. *)
Theorem NeuralNetwork_ignores_nonpositive_dropout (T : Models.TorchNN)
    (d : Q -> Exn + Models.Module) (input_dim output_dim : Z)
    (hidden_dims : list Z) (activation : Models.ActivationArg)
    (dropout dropout' : Q) (batch_norm : bool) :
  (dropout <= 0)%Q -> (dropout' <= 0)%Q ->
  Models.NeuralNetwork_init (Models.with_Dropout T d) input_dim output_dim
    hidden_dims activation dropout' batch_norm
  = Models.NeuralNetwork_init T input_dim output_dim hidden_dims activation
      dropout batch_norm.
Proof.
  intros Hd Hd'.
  assert (Models.Qpositive dropout = false) as Hq
    by (unfold Models.Qpositive; apply Qle_bool_iff in Hd; now rewrite Hd).
  assert (Models.Qpositive dropout' = false) as Hq'
    by (unfold Models.Qpositive; apply Qle_bool_iff in Hd'; now rewrite Hd').
  unfold Models.NeuralNetwork_init, Models.build_network.
  destruct (Models.select_activation activation) as [e | act_fn]; [reflexivity |].
  cbn [bindE].
  now rewrite (hidden_layers_without_dropout T d act_fn dropout dropout' batch_norm
                 hidden_dims Hq Hq').
Qed.

(** A dropout of -1 against the documented [nn.Dropout], which would refuse it. *)
Lemma NeuralNetwork_ignores_nonpositive_dropout_witness :
  (0 <= 0)%Q /\ (-1 <= 0)%Q
  /\ Models.NeuralNetwork_init
       (Models.with_Dropout Models.pytorch (Models.torch_Dropout Models.pytorch))
       4 2 [100; 100] (Models.ActStr "relu") (-1) false
     = Models.NeuralNetwork_init Models.pytorch 4 2 [100; 100]
         (Models.ActStr "relu") 0 false.
Proof.
  split; [discriminate |]. split; [discriminate |].
  apply (NeuralNetwork_ignores_nonpositive_dropout Models.pytorch
           (Models.torch_Dropout Models.pytorch) 4 2 [100; 100]
           (Models.ActStr "relu") 0 (-1) false); discriminate.
Defined.

(** X8: with no hidden layer the activation is checked and then unused: an
    unknown name still raises, while all accepted activations, dropouts and
    [batch_norm] settings give the same network. *)
Theorem NeuralNetwork_without_hidden_layers (T : Models.TorchNN)
    (input_dim output_dim : Z) (a1 a2 : Models.ActivationArg) (d1 d2 : Q)
    (b1 b2 : bool) :
  (Models.rejected a1 ->
   is_ValueError (Models.NeuralNetwork_init T input_dim output_dim [] a1 d1 b1))
  /\ (~ Models.rejected a1 -> ~ Models.rejected a2 ->
      Models.NeuralNetwork_init T input_dim output_dim [] a1 d1 b1
      = Models.NeuralNetwork_init T input_dim output_dim [] a2 d2 b2).
Proof.
  unfold Models.NeuralNetwork_init. split.
  - intros Hrej. apply select_activation_rejects in Hrej.
    destruct (Models.select_activation a1) as [e | act_fn]; [exact Hrej | contradiction].
  - intros H1 H2.
    destruct (Models.select_activation a1) as [e | f1] eqn:E1.
    { exfalso. apply H1. apply select_activation_rejects. rewrite E1.
      destruct a1 as [s | v]; [| discriminate].
      now rewrite (select_activation_message s e E1). }
    destruct (Models.select_activation a2) as [e | f2] eqn:E2.
    { exfalso. apply H2. apply select_activation_rejects. rewrite E2.
      destruct a2 as [s | v]; [| discriminate].
      now rewrite (select_activation_message s e E2). }
    reflexivity.
Qed.

(** X9: [NeuralNetwork.forward] of a successfully built network runs the
    layers before the last one in order and returns what the final
    [Softmax(dim=1)] returns on their output; if one of them raises, [forward]
    raises the same. This holds whatever the tensors are and whatever calling
    a module does. *)
Theorem NeuralNetwork_forward_ends_in_softmax {X : Type} (T : Models.TorchNN)
    (call : Models.PyVal -> X -> Exn + X)
    (input_dim output_dim : Z) (hidden_dims : list Z)
    (activation : Models.ActivationArg) (dropout : Q) (batch_norm : bool)
    (layers : Models.Module) (x : X) :
  Models.faithful T ->
  Models.NeuralNetwork_init T input_dim output_dim hidden_dims activation dropout
    batch_norm = inr layers ->
  exists act_fn front,
    Models.architecture act_fn dropout batch_norm input_dim hidden_dims output_dim
    = front ++ [Models.VModule (Models.MSoftmax 1)]
    /\ Models.NeuralNetwork_forward call layers x
       = match Models.sequential_forward call front x with
         | inl e => inl e
         | inr z => call (Models.VModule (Models.MSoftmax 1)) z
         end.
Proof.
  intros HT Hinit.
  destruct (init_architecture T _ _ _ _ _ _ _ HT Hinit) as (act_fn & _ & ->).
  destruct (architecture_ends_in_softmax act_fn dropout batch_norm hidden_dims
              input_dim output_dim) as [front Hfront].
  exists act_fn, front. split; [exact Hfront |].
  cbn [Models.NeuralNetwork_forward]. rewrite Hfront, sequential_forward_app.
  destruct (Models.sequential_forward call front x) as [e | z]; [reflexivity |].
  cbn. destruct (call (Models.VModule (Models.MSoftmax 1)) z); reflexivity.
Qed.

(** The default network, with tensors that only record which modules they
    went through. *)
Lemma NeuralNetwork_forward_ends_in_softmax_witness :
  let call := fun (v : Models.PyVal) (trace : list Models.PyVal) =>
                @inr Exn (list Models.PyVal) (trace ++ [v]) in
  Models.faithful Models.pytorch
  /\ exists act_fn front,
       Models.architecture act_fn 0 false 4 [100; 100] 2
       = front ++ [Models.VModule (Models.MSoftmax 1)]
       /\ Models.NeuralNetwork_forward call
            (Models.MSequential
               [Models.VModule (Models.MLinear 4 100); Models.VModule Models.MReLU;
                Models.VModule (Models.MLinear 100 100); Models.VModule Models.MReLU;
                Models.VModule (Models.MLinear 100 2);
                Models.VModule (Models.MSoftmax 1)]) []
          = match Models.sequential_forward call front [] with
            | inl e => inl e
            | inr z => call (Models.VModule (Models.MSoftmax 1)) z
            end.
Proof.
  cbv zeta. split; [exact pytorch_faithful |].
  apply (NeuralNetwork_forward_ends_in_softmax Models.pytorch
           (fun v trace => inr (trace ++ [v]))
           4 2 [100; 100] (Models.ActStr "relu") 0 false _ [] pytorch_faithful).
  reflexivity.
Defined.

(** ** main.py: how a run ends *)

Section MainOutcome.
Import Collab Main.
Context {W : Type} (env : Env W).

Ltac simp := cbn [calls result final ret raise].

Lemma three_results (method_name : string) (lin qrc nn : TrainResult) :
  known_method method_name ->
  dict_set (dict_set (dict_set [] (upper method_name ++ "+linear")%string lin)
              "QRC" qrc)
           (upper method_name ++ "+NN")%string nn
  = [((upper method_name ++ "+linear")%string, lin); ("QRC", qrc);
     ((upper method_name ++ "+NN")%string, nn)].
Proof. intros [-> | [-> | ->]]; reflexivity. Qed.

(** The tests on [method_name] a path has passed, as equations. *)
Ltac method_facts :=
  repeat match goal with
         | H : (lower _ =? _)%string = true |- _ => apply String.eqb_eq in H
         end.

Ltac impossible_path := exfalso; method_facts; congruence.

Ltac print_params_as_expected :=
  unfold expected_print_params;
  match goal with
  | H : (lower _ =? "guided_autoencoder")%string = _ |- _ => rewrite H
  end;
  reflexivity.

Ltac close_run :=
  simp;
  first
    [ solve [ apply outcome_raised;
              repeat first
                [ apply Forall_nil
                | apply Forall_cons;
                  [ first [ exact I | print_params_as_expected | impossible_path ] | ] ] ]
    | solve [ impossible_path ]
    | match goal with
      | |- context [layer_args ?a ?d ?pp] =>
          let Hpp := fresh "Hpp" in
          let Hknown := fresh "Hknown" in
          assert (pp = expected_print_params a) as Hpp
            by (symmetry; print_params_as_expected);
          assert (known_method (lower (reduction_method a))) as Hknown
            by (method_facts; unfold known_method; auto);
          rewrite Hpp, (three_results _ _ _ _ Hknown);
          eapply (outcome_returned env a); unfold trained_on, train_call; eauto
      end ].

Ltac step :=
  lazymatch goal with
  | |- context [bind (bind _ _) _ _] => rewrite bind_assoc
  | |- context [bind (poke ?f) _ ?w] =>
      rewrite bind_poke; generalize (f w); intro
  | |- context [bind (peek _) _ _] => rewrite bind_peek
  | |- context [bind (ret _) _ _] => rewrite bind_ret
  | |- context [bind (raise _) _ _] => rewrite bind_raise
  | |- context [bind (pure ?r) _ _] =>
      rewrite bind_pure; destruct r eqn:?; [ close_run | ]
  | |- context [bind (ext ?f) _ ?w] =>
      let H := fresh "Hcall" in
      rewrite bind_ext; destruct (f w) as [[?|?] ?] eqn:H;
      apply (f_equal fst) in H; cbn [fst snd] in H |- *; [ close_run | ]
  | |- context [bind (recorded ?f _) _ ?w] =>
      let H := fresh "Hcall" in
      rewrite bind_recorded; destruct (f w) as [[?|?] ?] eqn:H;
      apply (f_equal fst) in H; cbn [fst snd] in H |- *; [ close_run | ]
  | |- context [bind (if ?b then _ else _) _ _] => destruct b eqn:?
  | |- context [bind (match (if ?b then _ else _) with Some _ => _ | None => _ end) _ _] =>
      destruct b eqn:?
  | |- context [bind (match ?o with Some _ => _ | None => _ end) _ _] => destruct o eqn:?
  | |- context [bind (let (_, _) := ?p in _) _ _] => destruct p
  end; simp.

Lemma main_outcome_holds (args : Args) (w : W) :
  main_outcome env args (result (main_from env args w)) (calls (main_from env args w)).
Proof.
  unfold main_from, say_range, call_scale, new_DetuningLayer,
    call_apply_layer, pick_device, say.
  repeat step.
  all: close_run.
Qed.

End MainOutcome.

(** X12: a run of [main] that returns has used one of the three reduction
    methods and returns exactly three entries, labelled with the upper-cased
    method name: [<METHOD>+linear], [QRC] and [<METHOD>+NN], in this order. *)
Theorem main_returns_three_models {W : Type} (env : Collab.Env W)
    (args : Collab.Args) (w : W) (results : Collab.Results) :
  Collab.result (Main.main_from env args w) = inr results ->
  let method_name := lower (Collab.reduction_method args) in
  Main.known_method method_name
  /\ map fst results
     = [(upper method_name ++ "+linear")%string; "QRC";
        (upper method_name ++ "+NN")%string].
Proof.
  intros Hret. cbv zeta.
  pose proof (main_outcome_holds env args w) as Hout.
  rewrite Hret in Hout. inversion Hout; subst. split; [assumption | reflexivity].
Qed.

(** The closed world, with PCA. *)
Lemma main_returns_three_models_witness :
  exists results,
    Collab.result (Main.main_from Demo.env Demo.args Demo.world0) = inr results
    /\ map fst results = ["PCA+linear"; "QRC"; "PCA+NN"].
Proof.
  eexists. split; [vm_compute; reflexivity |].
  refine (proj2 (main_returns_three_models Demo.env Demo.args Demo.world0 _ _)).
  vm_compute; reflexivity.
Defined.

(** X13: in a run of [main] that returns, the entry [QRC] was trained on the
    embeddings the two [apply_layer] calls returned, and the two baselines on
    the very matrices those calls were given, all three with the same labels;
    the baselines differ in [nonlinear] only. *)
Theorem main_trains_on_embeddings {W : Type} (env : Collab.Env W)
    (args : Collab.Args) (w : W) (results : Collab.Results) :
  Collab.result (Main.main_from env args w) = inr results ->
  exists layer pp xs test_features embeddings test_embeddings ys test_targets
         lin qrc nn,
    Collab.calls (Main.main_from env args w)
    = [Collab.EConstruct (Main.layer_args args (Collab.dim_reduction args) pp)
                         (inr layer);
       Collab.EApplyLayer layer (Main.main_apply_args args xs) (inr embeddings);
       Collab.EApplyLayer layer (Main.main_apply_args args test_features)
                          (inr test_embeddings)]
    /\ map snd results = [lin; qrc; nn]
    /\ Main.trained_on env
         (Main.train_call args xs test_features ys test_targets false) lin
    /\ Main.trained_on env
         (Main.train_call args embeddings test_embeddings ys test_targets false) qrc
    /\ Main.trained_on env
         (Main.train_call args xs test_features ys test_targets true) nn.
Proof.
  intros Hret.
  pose proof (main_outcome_holds env args w) as Hout.
  rewrite Hret in Hout. inversion Hout; subst.
  do 11 eexists. repeat split; eassumption || reflexivity.
Qed.

Lemma main_trains_on_embeddings_witness :
  exists results,
    Collab.result (Main.main_from Demo.env Demo.args Demo.world0) = inr results
    /\ exists lin qrc nn, map snd results = [lin; qrc; nn].
Proof.
  eexists. split; [vm_compute; reflexivity |].
  match goal with
  | |- exists lin qrc nn, map snd ?r = _ =>
      assert (Collab.result (Main.main_from Demo.env Demo.args Demo.world0) = inr r)
        as Hret by (vm_compute; reflexivity)
  end.
  destruct (main_trains_on_embeddings Demo.env Demo.args Demo.world0 _ Hret)
    as (layer & pp & xs & tf & emb & temb & ys & tt & lin & qrc & nn & _ & Hres & _).
  exists lin, qrc, nn. exact Hres.
Defined.

(** X14: every construction of the layer in a run of [main] passes
    [print_params=False] when the method is [guided_autoencoder] and leaves
    the keyword out otherwise. *)
Theorem main_print_params_by_method {W : Type} (env : Collab.Env W)
    (args : Collab.Args) (w : W) :
  Forall (fun ev => match ev with
                    | Collab.EConstruct a _ =>
                        Collab.la_print_params a
                        = if (lower (Collab.reduction_method args)
                              =? "guided_autoencoder")%string
                          then Some false else None
                    | Collab.EApplyLayer _ _ _ => True
                    end)
         (Collab.calls (Main.main_from env args w)).
Proof.
  pose proof (main_outcome_holds env args w) as Hout.
  inversion Hout; subst.
  - assumption.
  - repeat constructor.
Qed.

(** ** main.py: the ways a run stops early *)

Section MainStops.
Import Collab Main.
Context {W : Type} (env : Env W).

Ltac simp := cbn [calls result final ret raise].

(** A call that the hypotheses say cannot raise did not raise. *)
Ltac cannot_raise :=
  exfalso;
  match goal with
  | Hcall : fst (?f ?w) = inl ?e, Hok : succeeds ?f |- _ => exact (Hok w e Hcall)
  | Hcall : fst (?f ?w) = inl ?e, Hok : forall a, succeeds _ |- _ =>
      exact (Hok _ w e Hcall)
  end.

Ltac loading_parts :=
  match goal with
  | H : loading_succeeds _ _ |- _ =>
      destruct H as ((Hseed1 & Hseed2 & Hseed3) & Hload & Hthere);
      unfold data_root in Hthere
  | H : seeding_succeeds _ _ |- _ => destruct H as (Hseed1 & Hseed2 & Hseed3)
  end.

Ltac stopped :=
  simp;
  split; [ reflexivity | split; [ intros; discriminate | intros; loading_parts ] ].

Ltac step absurd :=
  lazymatch goal with
  | |- context [bind (bind _ _) _ _] => rewrite bind_assoc
  | |- context [bind (poke ?f) _ ?w] =>
      rewrite bind_poke; generalize (f w); intro
  | |- context [bind (peek _) _ _] => rewrite bind_peek
  | |- context [bind (ret _) _ _] => rewrite bind_ret
  | |- context [bind (raise _) _ _] => rewrite bind_raise
  | |- context [bind (ext ?f) _ ?w] =>
      let H := fresh "Hcall" in
      rewrite bind_ext; destruct (f w) as [[?|?] ?] eqn:H;
      apply (f_equal fst) in H; cbn [fst snd] in H |- *;
      [ solve [stopped; cannot_raise] | ]
  | |- context [bind (if ?b then _ else _) _ _] =>
      destruct b eqn:?; try solve [absurd]
  end; simp.

Ltac known_after_all :=
  exfalso;
  match goal with
  | Hunknown : ~ known_method _, H : (lower _ =? _)%string = true |- _ =>
      apply Hunknown; apply String.eqb_eq in H; unfold known_method; rewrite H; auto
  end.

(** No directory where the dataset should be. *)
Ltac directory_missing :=
  stopped;
  match goal with
  | Hthere : _ \/ _, Hmnist : (_ =? "mnist")%string = false,
    Hfound : negb (path_exists _ _ ?w) = true |- _ =>
      destruct Hthere as [Hthere | Hthere];
      [ congruence | rewrite Hthere in Hfound; discriminate ]
  end.

(** X15: when [reduction_method] is none of pca, autoencoder and
    guided_autoencoder (case aside), a run of [main] never returns and never
    touches the quantum layer; if seeding and loading go through, what it
    raises is [ValueError("Unknown reduction method: ...")], with the name in
    lower case. *)
Theorem main_unknown_method (args : Args) (w : W) :
  ~ known_method (lower (reduction_method args)) ->
  calls (main_from env args w) = []
  /\ (forall results, result (main_from env args w) <> inr results)
  /\ (loading_succeeds env args ->
      result (main_from env args w)
      = inl (ValueError ("Unknown reduction method: "
                         ++ lower (reduction_method args))%string)).
Proof.
  intros Hunknown. unfold main_from, say.
  repeat step known_after_all.
  - stopped. reflexivity.
  - directory_missing.
  - stopped. reflexivity.
Qed.

Ltac directory_found_after_all :=
  first
    [ congruence
    | match goal with
      | Hmissing : forall w', path_exists _ _ w' = false,
        Hfound : negb (path_exists _ _ _) = false |- _ =>
          rewrite Hmissing in Hfound; discriminate
      end ].

(** X16: for a dataset other than mnist whose directory
    [DATA_DIR/<dataset_type>] does not exist, a run of [main] never returns
    and never touches the quantum layer; if seeding goes through, what it
    raises is [ValueError("Dataset directory does not exist: ...")], before
    anything is loaded. [DATA_DIR] is the default when [args.data_dir] is
    [None] or empty. *)
Theorem main_missing_directory (args : Args) (w : W) :
  (dataset_type args =? "mnist")%string = false ->
  (forall w', path_exists env
                (path_join env (data_root env args) (dataset_type args)) w' = false) ->
  calls (main_from env args w) = []
  /\ (forall results, result (main_from env args w) <> inr results)
  /\ (seeding_succeeds env args ->
      result (main_from env args w)
      = inl (ValueError ("Dataset directory does not exist: "
                         ++ path_join env (data_root env args)
                              (dataset_type args))%string)).
Proof.
  intros Hmnist Hmissing. unfold data_root in Hmissing. unfold main_from, say.
  repeat step directory_found_after_all.
  stopped. reflexivity.
Qed.

End MainStops.

Section DemoRuns.
Import Collab.

Lemma demo_seeding (env : Env Demo.World) (args : Args) :
  random_seed env = QrcLayer.seed_random Demo.numerics ->
  np_random_seed env = QrcLayer.seed_numpy Demo.numerics ->
  torch_manual_seed env = QrcLayer.seed_torch Demo.numerics ->
  Main.seeding_succeeds env args.
Proof.
  intros H1 H2 H3. unfold Main.seeding_succeeds. rewrite H1, H2, H3.
  repeat split; intros w e H; discriminate H.
Qed.

Lemma demo_loading (args : Args) :
  dataset_type args = "mnist" -> Main.loading_succeeds Demo.env args.
Proof.
  intros Hmnist. split; [now apply demo_seeding |].
  split; [intros a w e H; discriminate H |].
  left. now rewrite Hmnist.
Qed.

End DemoRuns.

(** The closed world asked for an SVD. *)
Lemma main_unknown_method_witness :
  ~ Main.known_method (lower "SVD")
  /\ Collab.calls
       (Main.main_from Demo.env (Collab.with_reduction_method Demo.args "SVD")
          Demo.world0) = []
  /\ Collab.result
       (Main.main_from Demo.env (Collab.with_reduction_method Demo.args "SVD")
          Demo.world0)
     = inl (ValueError "Unknown reduction method: svd").
Proof.
  assert (~ Main.known_method (lower "SVD")) as Hunknown
    by (intros [H | [H | H]]; discriminate H).
  split; [exact Hunknown |].
  destruct (main_unknown_method Demo.env
              (Collab.with_reduction_method Demo.args "SVD") Demo.world0 Hunknown)
    as (Hcalls & _ & Hraise).
  split; [exact Hcalls |].
  apply Hraise. now apply demo_loading.
Defined.

(** The closed world without its folders, asked for the polyps images. *)
Lemma main_missing_directory_witness :
  (Collab.dataset_type Demo.folder_args =? "mnist")%string = false
  /\ Collab.calls (Main.main_from Demo.offline Demo.folder_args Demo.world0) = []
  /\ Collab.result (Main.main_from Demo.offline Demo.folder_args Demo.world0)
     = inl (ValueError "Dataset directory does not exist: ../data/datasets/polyps").
Proof.
  split; [reflexivity |].
  destruct (main_missing_directory Demo.offline Demo.folder_args Demo.world0
              eq_refl (fun _ => eq_refl))
    as (Hcalls & _ & Hraise).
  split; [exact Hcalls |].
  apply Hraise. now apply demo_seeding.
Defined.
Section MethodCase.
Import Collab Main.
Context {W : Type} (env : Env W).

(** X17: [main] reads [reduction_method] through its lower-case form only:
    two runs whose arguments differ in the case of the method's letters are
    the same run, with the same result, world and calls. *)
Theorem main_method_case_blind (args : Args) (m1 m2 : string) (w : W) :
  lower m1 = lower m2 ->
  main_from env (with_reduction_method args m1) w
  = main_from env (with_reduction_method args m2) w.
Proof.
  intros Hsame. unfold main_from, layer_args, pick_device, train_kwargs.
  cbn [with_reduction_method seed data_dir dataset_type target_size split_ratio
       dim_reduction reduction_method num_examples num_test_examples gpu
       autoencoder_hidden_dims autoencoder_batch_size autoencoder_epochs
       autoencoder_learning_rate no_progress geometry lattice_spacing rabi_freq
       evolution_time time_steps readout_type encoding_scale guided_alpha
       guided_beta guided_batch_size quantum_update_frequency n_shots
       detuning_max regularization nepochs batchsize learning_rate no_plot].
  rewrite Hsame. reflexivity.
Qed.

End MethodCase.

Section FitFacts.
Import Collab.
Context {W : Type} (env : Env W).

(** X10: when [apply_layer] raises on the training matrix, [QRCModel.fit]
    raises the same exception at once: that call is its only call on the
    layer, the test matrix is never sent, and the world is left as the failed
    call left it. *)
Theorem QRCModel_fit_stops_at_training_matrix (self : Models.QRCModel)
    (x_train : ndarray) (y_train : Labels) (x_test : ndarray) (y_test : Labels)
    (kwargs : list (string * KwVal)) (w : W) (e : Exn) :
  let first_call := {| a_x := x_train; a_n_shots := None; a_show_progress := None |} in
  let attempt := apply_layer env (Models.quantum_layer self) first_call
                   (print env "Computing quantum embeddings for training data..." w) in
  fst attempt = inl e ->
  let run := Models.QRCModel_fit env self x_train y_train x_test y_test kwargs w in
  result run = inl e
  /\ final run = snd attempt
  /\ calls run = [EApplyLayer (Models.quantum_layer self) first_call (inl e)].
Proof.
  cbv zeta. intros Hfail. unfold Models.QRCModel_fit, Models.apply_layer_x.
  rewrite bind_poke, bind_recorded, Hfail. cbn. auto.
Qed.

(** X11: [QRCModel.fit] either raises what one of its two [apply_layer]
    calls raised, or hands [train] the embeddings of the training and of the
    test matrix, with the labels and keyword arguments it was given, and
    returns or raises what [train] does. *)
Theorem QRCModel_fit_trains_on_embeddings (self : Models.QRCModel)
    (x_train : ndarray) (y_train : Labels) (x_test : ndarray) (y_test : Labels)
    (kwargs : list (string * KwVal)) (w : W) :
  let run := Models.QRCModel_fit env self x_train y_train x_test y_test kwargs w in
  (exists e x,
      result run = inl e
      /\ (x = x_train \/ x = x_test)
      /\ In (EApplyLayer (Models.quantum_layer self)
               {| a_x := x; a_n_shots := None; a_show_progress := None |} (inl e))
            (calls run))
  \/ (exists train_embeddings test_embeddings w',
         calls run
         = [EApplyLayer (Models.quantum_layer self)
              {| a_x := x_train; a_n_shots := None; a_show_progress := None |}
              (inr train_embeddings);
            EApplyLayer (Models.quantum_layer self)
              {| a_x := x_test; a_n_shots := None; a_show_progress := None |}
              (inr test_embeddings)]
         /\ result run
            = fst (train env {| Collab.x_train := train_embeddings;
                                Collab.y_train := y_train;
                                Collab.x_test := test_embeddings;
                                Collab.y_test := y_test;
                                Collab.kwargs := kwargs |} w')).
Proof.
  cbv zeta. unfold Models.QRCModel_fit, Models.apply_layer_x.
  rewrite bind_poke, bind_recorded.
  destruct (fst (apply_layer env _ _ _)) as [e | train_embeddings] eqn:Htrain;
    cbn [result calls].
  { left. exists e, x_train. split; [reflexivity |]. split; [now left | now left]. }
  rewrite bind_poke, bind_recorded.
  match goal with
  | |- context [fst (apply_layer env ?l ?a ?w')] =>
      destruct (fst (apply_layer env l a w')) as [e | test_embeddings] eqn:Htest
  end; cbn [result calls].
  { left. exists e, x_test. split; [reflexivity |].
    split; [now right | right; now left]. }
  right. exists train_embeddings, test_embeddings. eexists.
  split; reflexivity.
Qed.

End FitFacts.

(** The closed world before any layer exists. *)
Lemma QRCModel_fit_stops_at_training_matrix_witness :
  let self := Models.QRCModel_init 0%nat None in
  let run := Models.QRCModel_fit Demo.env self [[0; 0]]%Q (Collab.Classes [0])
               [[1; 1]]%Q (Collab.Classes [1]) [] Demo.world0 in
  Collab.result run = inl (OtherError "AttributeError" "not a DetuningLayer")
  /\ List.length (Collab.calls run) = 1%nat.
Proof.
  cbv zeta.
  destruct (QRCModel_fit_stops_at_training_matrix Demo.env
              (Models.QRCModel_init 0%nat None) [[0; 0]]%Q (Collab.Classes [0])
              [[1; 1]]%Q (Collab.Classes [1]) [] Demo.world0
              (OtherError "AttributeError" "not a DetuningLayer") eq_refl)
    as (Hres & _ & Hcalls).
  split; [exact Hres | now rewrite Hcalls].
Defined.

(** PCA in capitals and in small letters. *)
Lemma main_method_case_blind_witness :
  lower "PCA" = lower "pca"
  /\ Main.main_from Demo.env (Collab.with_reduction_method Demo.args "PCA") Demo.world0
     = Main.main_from Demo.env (Collab.with_reduction_method Demo.args "pca") Demo.world0.
Proof.
  split; [reflexivity |].
  apply (main_method_case_blind Demo.env Demo.args "PCA" "pca" Demo.world0).
  reflexivity.
Defined.
